(** * stock-scraper: the stabilization monitor, the match evaluator and
      the domain policy construction of [app/stock_scraper.py]

    The development embeds the three parts of the scraper in Rocq:
    - [extract_domains], which turns the raw records of [pages.json] into
      [Domain] objects and compiles their [value_] into a regular expression;
    - [Scraper.get_loaded_page], the polling loop that waits for the DOM hash
      to stop changing;
    - [Scraper.check_stock], which searches the parsed page by class, id and
      text pattern, and the sweep loop of [main] around it.

    Python's [re], BeautifulSoup's [find] and the Selenium driver are
    modelled as far as the scraper uses them. *)

From Stdlib Require Import Bool List Arith ZArith Lia Ascii String.
Import ListNotations.

Local Open Scope string_scope.
Local Open Scope list_scope.

(** ** Python strings

    A [str] is a Rocq [string]; one [ascii] stands for one character. *)

Module Str.

Fixpoint startswith (pre s : string) : bool :=
  match pre with
  | EmptyString => true
  | String a pre' =>
      match s with
      | EmptyString => false
      | String b s' => Ascii.eqb a b && startswith pre' s'
      end
  end.

(** [contains sub s] is Python's [sub in s]. *)
Fixpoint contains (sub s : string) : bool :=
  startswith sub s ||
  match s with
  | EmptyString => false
  | String _ s' => contains sub s'
  end.

(** The same notion as a proposition: [sub] sits somewhere inside [s]. *)
Definition occurs_in (sub s : string) : Prop :=
  exists before after, s = (before ++ sub ++ after)%string.

(** [sep.join(parts)]. *)
Fixpoint join (sep : string) (parts : list string) : string :=
  match parts with
  | [] => EmptyString
  | [p] => p
  | p :: rest => (p ++ sep ++ join sep rest)%string
  end.

(** Truth value of [s] where [s] is [None] or a [str]: [None] and the empty
    string are false. *)
Definition truthy (s : option string) : bool :=
  match s with
  | Some (String _ _) => true
  | _ => false
  end.

Definition cr : ascii := ascii_of_nat 13.
Definition lf : ascii := ascii_of_nat 10.
Definition esc : ascii := ascii_of_nat 27.
Definition crlf : string := String cr (String lf EmptyString).

End Str.

(** ** The fragment of Python's [re] the policies are read with

    [re.compile] is modelled on patterns made of literal characters, [.] and
    the repetition marks [*], [+], [?] (each optionally followed by the lazy
    mark [?]).  A pattern using any other special character is reported as
    [Unmodelled]: what [re] does with it is left to the scraper's parameter
    [re_beyond].  The errors [re.compile] raises inside the fragment
    ("nothing to repeat", "multiple repeat") are reported as [Error]. *)

Module Re.

Inductive atom : Type :=
| Lit (c : ascii)     (* LITERAL *)
| Dot.                (* ANY: every character but a newline *)

Inductive quant : Type :=
| One                 (* no repetition mark *)
| Opt                 (* ? *)
| Star                (* * *)
| Plus.               (* + *)

Definition item : Type := (atom * quant)%type.
Definition pattern : Type := list item.

Inductive compiled : Type :=
| Compiled (p : pattern)
| Error               (* re.error *)
| Unmodelled.         (* syntax outside the fragment *)

Definition quant_of (c : ascii) : option quant :=
  if Ascii.eqb c "*" then Some Star
  else if Ascii.eqb c "+" then Some Plus
  else if Ascii.eqb c "?" then Some Opt
  else None.

(** The special characters of [sre_parse] that the fragment leaves out:
    groups, alternation, classes, escapes, anchors and counted repeats. *)
Definition beyond (c : ascii) : bool :=
  existsb (Ascii.eqb c) ["("; ")"; "|"; "["; "\"; "^"; "$"; "{"]%char.

(** A character with no special meaning at all. *)
Definition plain_char (c : ascii) : bool :=
  negb (Ascii.eqb c ".") &&
  match quant_of c with Some _ => false | None => true end &&
  negb (beyond c).

Fixpoint plain (s : string) : bool :=
  match s with
  | EmptyString => true
  | String c s' => plain_char c && plain s'
  end.

(** [sre_parse._parse], left to right; [acc] holds the items read so far,
    last one first. *)
Fixpoint parse (acc : list item) (s : string) : compiled :=
  match s with
  | EmptyString => Compiled (rev acc)
  | String c s' =>
      match quant_of c with
      | Some q =>
          match acc with
          | [] => Error                        (* nothing to repeat *)
          | (a, One) :: acc' =>
              match s' with
              | String "?"%char s'' => parse ((a, q) :: acc') s''
              | String "+"%char _ => Unmodelled (* possessive or error,
                                                   by Python version *)
              | _ => parse ((a, q) :: acc') s'
              end
          | _ :: _ => Error                    (* multiple repeat *)
          end
      | None =>
          if Ascii.eqb c "." then parse ((Dot, One) :: acc) s'
          else if beyond c then Unmodelled
          else parse ((Lit c, One) :: acc) s'
      end
  end.

Definition compile (s : string) : compiled := parse [] s.

Definition atom_matches (a : atom) (c : ascii) : bool :=
  match a with
  | Lit x => Ascii.eqb x c
  | Dot => negb (Ascii.eqb c Str.lf)
  end.

(** [a*] followed by the rest of the pattern, [k]. *)
Fixpoint repeat_atom (a : atom) (k : string -> bool) (s : string) : bool :=
  k s ||
  match s with
  | EmptyString => false
  | String c s' => atom_matches a c && repeat_atom a k s'
  end.

(** Does the pattern match at the start of [s]?  ([Pattern.match].) *)
Fixpoint match_here (p : pattern) (s : string) : bool :=
  match p with
  | [] => true
  | (a, q) :: p' =>
      let one (k : string -> bool) :=
        match s with
        | EmptyString => false
        | String c s' => atom_matches a c && k s'
        end in
      match q with
      | One => one (match_here p')
      | Opt => match_here p' s || one (match_here p')
      | Star => repeat_atom a (match_here p') s
      | Plus => one (repeat_atom a (match_here p'))
      end
  end.

(** [Pattern.search]: a match starting at any position of [s]. *)
Fixpoint search (p : pattern) (s : string) : bool :=
  match_here p s ||
  match s with
  | EmptyString => false
  | String _ s' => search p s'
  end.

(** The items of a pattern without special characters. *)
Fixpoint literal (s : string) : pattern :=
  match s with
  | EmptyString => []
  | String c s' => (Lit c, One) :: literal s'
  end.

End Re.

(** ** The part of BeautifulSoup the scraper searches with *)

Module Bs4.

#[local] Set Warnings "-register-all".

(** A parsed page.  Of a tag's attributes only [class] and [id] are kept;
    [class] is multi-valued, so bs4 stores the list of its values. *)
Inductive node : Type :=
| NavigableString (text : string)
| Tag (name : string) (class : option (list string)) (id : option string)
      (contents : list node).

(** [Tag.descendants]: every node below [n], in document order. *)
Fixpoint descendants (n : node) : list node :=
  match n with
  | NavigableString _ => []
  | Tag _ _ _ contents => flat_map (fun k => k :: descendants k) contents
  end.

(** [SoupStrainer._matches] of a multi-valued attribute against a string:
    one of the values is the string, or the values joined by a blank are. *)
Definition matches_class (wanted : string) (n : node) : bool :=
  match n with
  | Tag _ (Some values) _ _ =>
      existsb (String.eqb wanted) values ||
      String.eqb (Str.join " " values) wanted
  | _ => false
  end.

Definition matches_id (wanted : string) (n : node) : bool :=
  match n with
  | Tag _ _ (Some i) _ => String.eqb i wanted
  | _ => false
  end.

(** A strainer made of a pattern only matches strings, with
    [Pattern.search]. *)
Definition matches_text (p : Re.pattern) (n : node) : bool :=
  match n with
  | NavigableString text => Re.search p text
  | Tag _ _ _ _ => false
  end.

(** The same for a compiled pattern of which only its [search] is known. *)
Definition matches_string (found_in : string -> bool) (n : node) : bool :=
  match n with
  | NavigableString text => found_in text
  | Tag _ _ _ _ => false
  end.

(** [find] is [find_all] with [limit=1]: the first descendant that the
    strainer accepts, or [None]. *)
Definition find_by (accepts : node -> bool) (n : node) : option node :=
  List.find accepts (descendants n).

Definition find_class (wanted : string) : node -> option node :=
  find_by (matches_class wanted).
Definition find_id (wanted : string) : node -> option node :=
  find_by (matches_id wanted).
Definition find_text (p : Re.pattern) : node -> option node :=
  find_by (matches_text p).

End Bs4.

(** ** Dictionaries

    A [dict] keeps its keys in insertion order; [extract_domains] walks it in
    that order. *)

Definition dict (V : Type) : Type := list (string * V).

Definition dict_keys {V} (d : dict V) : list string := map fst d.

Fixpoint dict_get {V} (k : string) (d : dict V) : option V :=
  match d with
  | [] => None
  | (k', v) :: d' => if String.eqb k k' then Some v else dict_get k d'
  end.

(** [d[k] = v]: an existing key keeps its place, a new one goes last. *)
Fixpoint dict_set {V} (k : string) (v : V) (d : dict V) : dict V :=
  match d with
  | [] => [(k, v)]
  | (k', v') :: d' =>
      if String.eqb k k' then (k', v) :: d' else (k', v') :: dict_set k v d'
  end.

(** ** The world the program runs in

    The render session is scripted: [feed] lists the DOM that successive
    observations of the page find, [cursor] counts the observations made so
    far.  [bakes link] are the cookies the site behind [link] sets; [jar] is
    the driver's cookie jar.  [log] records what the program did, oldest
    first. *)

Inductive event : Type :=
| Navigate (link : string)                      (* driver.get(link) *)
| ReadDom (dom : string)                        (* innerHTML of <html> *)
| Sleep (seconds : Z)                           (* time.sleep *)
| ReadSource (markup : string)                  (* driver.page_source *)
| DeleteCookies                                 (* delete_all_cookies *)
| Print (line : string)
| SendMail (sender recipient message : string). (* server.sendmail *)

Record world : Type := mkWorld {
  feed : nat -> string;
  bakes : string -> list string;
  cursor : nat;
  jar : list string;
  log : list event
}.

Definition emit (e : event) (w : world) : world :=
  mkWorld (feed w) (bakes w) (cursor w) (jar w) (log w ++ [e]).

Inductive exn : Type :=
| KeyError | TypeError | AttributeError
| ReError        (* re.error *)
| ValueError.    (* raised by urlparse *)

(** Why a computation did not return. *)
Inductive halt : Type :=
| Raised (e : exn)
| Polling.     (* the fuel ran out inside the stabilization loop *)

Inductive outcome (A : Type) : Type :=
| Returns (a : A) (w : world)
| Stops (h : halt) (w : world).
Arguments Returns {A} a w.
Arguments Stops {A} h w.

Definition M (A : Type) : Type := world -> outcome A.

Definition ret {A} (a : A) : M A := fun w => Returns a w.

Definition bind {A B} (m : M A) (f : A -> M B) : M B :=
  fun w =>
    match m w with
    | Returns a w' => f a w'
    | Stops h w' => Stops h w'
    end.

Definition stop {A} (h : halt) : M A := fun w => Stops h w.
Definition raise {A} (e : exn) : M A := stop (Raised e).

Notation "x <- m ;; k" := (bind m (fun x => k))
  (at level 61, m at next level, right associativity).
Notation "m ;;; k" := (bind m (fun _ => k))
  (at level 61, right associativity).

Definition print (line : string) : M unit :=
  fun w => Returns tt (emit (Print line) w).

(** *** The Selenium driver *)

Definition driver_get (link : string) : M unit :=
  fun w =>
    Returns tt
      (mkWorld (feed w) (bakes w) (cursor w) (jar w ++ bakes w link)
               (log w ++ [Navigate link])).

(** One observation of the page: the next DOM of the script. *)
Definition observe (w : world) : string * world :=
  (feed w (cursor w),
   mkWorld (feed w) (bakes w) (S (cursor w)) (jar w) (log w)).

(** [find_element_by_tag_name("html").get_attribute("innerHTML")]. *)
Definition inner_html : M string :=
  fun w => let (dom, w') := observe w in Returns dom (emit (ReadDom dom) w').

(** [driver.page_source]: the document as it is when asked for. *)
Definition page_source : M string :=
  fun w =>
    let (dom, w') := observe w in
    let markup := ("<html>" ++ dom ++ "</html>")%string in
    Returns markup (emit (ReadSource markup) w').

Definition delete_all_cookies : M unit :=
  fun w =>
    Returns tt
      (mkWorld (feed w) (bakes w) (cursor w) [] (log w ++ [DeleteCookies])).

Definition sleep (seconds : Z) : M unit :=
  fun w => Returns tt (emit (Sleep seconds) w).

(** ** The scraper *)

(** [class Domain].  [value_] first holds the configured string and, once
    [extract_domains] is through with the record, the compiled pattern: a
    pattern of the fragment [Re] models, or a pattern that Python compiled
    from a source outside that fragment, of which the development only
    knows the source and what its [search] finds. *)
Inductive str_or_pattern : Type :=
| VStr (s : string)
| VPattern (p : Re.pattern)
| VForeign (source : string) (found_in : string -> bool).

Record Domain : Type := mkDomain {
  class_ : option string;
  id_ : option string;
  value_ : option str_or_pattern
}.

(** What a host is bound to in the domains dictionary: the record read from
    [pages.json] (a JSON object whose fields are strings or [null]), or the
    [Domain] it was converted into. *)
Inductive entry : Type :=
| RawRecord (fields : dict (option string))
| DomainObj (d : Domain).

(** Truth value of an entry: a [dict] is true unless empty, a [Domain]
    always is. *)
Definition entry_truthy (e : entry) : bool :=
  match e with
  | RawRecord [] => false
  | _ => true
  end.

Definition value_truthy (v : option str_or_pattern) : bool :=
  match v with
  | None => false
  | Some (VStr s) => Str.truthy (Some s)
  | Some (VPattern _) => true
  | Some (VForeign _ _) => true
  end.

(** [class Notifier], as far as [send_notification] reads it. *)
Record Notifier : Type := mkNotifier {
  sender_address : string;
  recipients : list string
}.

Definition format_error : string := "Domain formatting error in pages.json.".

(** The value of [page_hash] and [page_hash_new]: the two strings they
    start as, then the integers [hash] returns. *)
Inductive hash_value : Type :=
| HStr (s : string)
| HInt (h : Z).

Definition hash_ne (a b : hash_value) : bool :=
  match a, b with
  | HStr s, HStr t => negb (String.eqb s t)
  | HInt h, HInt k => negb (Z.eqb h k)
  | _, _ => true
  end.

Section Scraper.

(** What the scraper takes from its libraries without this development
    looking inside: [hash] on the UTF-8 bytes of a string; the lxml parser
    behind [BeautifulSoup(markup, "lxml")]; [urlparse(link).netloc], which is
    [None] for the links on which [urlparse] raises [ValueError]; and what
    [re] does with a pattern whose source lies outside the fragment of [Re]:
    [None] when [re.compile] raises [re.error], else what the [search] of the
    compiled pattern finds. *)
Variable py_hash : string -> Z.
Variable lxml : string -> Bs4.node.
Variable netloc : string -> option string.
Variable re_beyond : string -> option (string -> bool).

(** [re.compile(source)]; [None] is [re.error]. *)
Definition py_compile (source : string) : option str_or_pattern :=
  match Re.compile source with
  | Re.Compiled p => Some (VPattern p)
  | Re.Error => None
  | Re.Unmodelled => option_map (VForeign source) (re_beyond source)
  end.

(** The body of the [try] block of [extract_domains] for one key: the
    dictionary after it, or the exception that left it. *)
Definition try_convert (key : string) (val : entry) (domain_dict : dict entry)
  : halt + dict entry :=
  match val with
  | DomainObj _ => inl (Raised TypeError)   (* a Domain is not subscriptable *)
  | RawRecord fields =>
      match dict_get "class_" fields with
      | None => inl (Raised KeyError)
      | Some c =>
      match dict_get "id_" fields with
      | None => inl (Raised KeyError)
      | Some i =>
      match dict_get "value_" fields with
      | None => inl (Raised KeyError)
      | Some v =>
          let domain_dict :=
            dict_set key (DomainObj (mkDomain c i (option_map VStr v)))
                     domain_dict in
          match v with
          | None => inr domain_dict
          | Some raw =>
              match py_compile (".*" ++ raw ++ ".*")%string with
              | Some compiled =>
                  inr (dict_set key
                         (DomainObj (mkDomain c i (Some compiled)))
                         domain_dict)
              | None => inl (Raised ReError)
              end
          end
      end end end
  end.

(** [for key in domain_dict: ...].  No key is added or removed on the way,
    so the keys walked are those the dictionary starts with. *)
Fixpoint extract_loop (keys : list string) (domain_dict : dict entry)
  : M (dict entry) :=
  match keys with
  | [] => ret domain_dict
  | key :: keys' =>
      match dict_get key domain_dict with
      | None => raise KeyError
      | Some val =>
          match try_convert key val domain_dict with
          | inr domain_dict' => extract_loop keys' domain_dict'
          | inl (Raised KeyError) =>
              print format_error ;;; extract_loop keys' domain_dict
          | inl h => stop h
          end
      end
  end.

Definition extract_domains (domain_dict : dict entry) : M (dict entry) :=
  extract_loop (dict_keys domain_dict) domain_dict.

Definition get_page_hash : M Z :=
  dom <- inner_html ;; ret (py_hash dom).

(** The [while] loop of [get_loaded_page]; [fuel] bounds the iterations
    the model follows. *)
Fixpoint poll (fuel : nat) (sleep_time : Z) (page_hash page_hash_new : hash_value)
  : M unit :=
  if hash_ne page_hash page_hash_new then
    match fuel with
    | O => stop Polling
    | S fuel' =>
        h <- get_page_hash ;;
        sleep sleep_time ;;;
        h_new <- get_page_hash ;;
        poll fuel' sleep_time (HInt h) (HInt h_new)
    end
  else ret tt.

Definition get_loaded_page (fuel : nat) (link : string) (sleep_time : Z)
  : M string :=
  driver_get link ;;;
  poll fuel sleep_time (HStr "empty") (HStr "") ;;;
  page_source.

Definition no_criteria (domain_name : string) : string :=
  ("You must provide at least one class, id, or string value to search for on "
     ++ domain_name)%string.

Definition not_provided (domain_name : string) : string :=
  ("Search information for domain: " ++ domain_name ++ " not provided.")%string.

(** [re.compile(domain.value_)]: a compiled pattern is returned as it is. *)
Definition recompile (v : str_or_pattern) : M str_or_pattern :=
  match v with
  | VStr s =>
      match py_compile s with
      | Some compiled => ret compiled
      | None => raise ReError
      end
  | compiled => ret compiled
  end.

(** [soup.find(text=pattern)]. *)
Definition find_pattern (pattern : str_or_pattern) (soup : Bs4.node)
  : option Bs4.node :=
  match pattern with
  | VPattern p => Bs4.find_text p soup
  | VForeign _ found_in => Bs4.find_by (Bs4.matches_string found_in) soup
  | VStr _ => None     (* never a string: [recompile] returns patterns *)
  end.

(** [Scraper.check_stock]; [domains] is [self.domains].  A soup object is
    always true, so [soup and ...] only asks whether [soup] is [None]. *)
Definition check_stock (fuel : nat) (domains : dict entry) (link : string)
  : M bool :=
  markup <- get_loaded_page fuel link 2 ;;
  let soup := Some (lxml markup) in
  match netloc link with
  | None => raise ValueError
  | Some domain_name =>
  match dict_get domain_name domains with
  | Some domain =>
      if entry_truthy domain then
        match domain with
        | RawRecord _ => raise AttributeError   (* a dict has no class_ *)
        | DomainObj domain =>
            if negb (Str.truthy (class_ domain) || Str.truthy (id_ domain)
                     || value_truthy (value_ domain))
            then print (no_criteria domain_name) ;;; ret false
            else
              let soup :=
                match soup, class_ domain, id_ domain with
                | Some s, Some (String _ _ as c), _ => Bs4.find_class c s
                | Some s, _, Some (String _ _ as i) => Bs4.find_id i s
                | _, _, _ => soup
                end in
              soup <-
                match soup, value_ domain with
                | Some s, Some v =>
                    if value_truthy (Some v)
                    then p <- recompile v ;; ret (find_pattern p s)
                    else ret soup
                | _, _ => ret soup
                end ;;
              ret (match soup with Some _ => true | None => false end)
        end
      else print (not_provided domain_name) ;;; ret false
  | None => print (not_provided domain_name) ;;; ret false
  end
  end.

Definition delete_cookies : M unit := delete_all_cookies.

(** [Notifier.send_notification]. *)
Fixpoint send_to (n : Notifier) (to : list string) (subject body : string)
  : M unit :=
  match to with
  | [] => ret tt
  | recipient_address :: rest =>
      let message :=
        ("From: " ++ sender_address n ++ Str.crlf
         ++ "To: " ++ recipient_address ++ Str.crlf
         ++ "Subject: " ++ subject ++ Str.crlf
         ++ Str.crlf
         ++ body)%string in
      (fun w => Returns tt
         (emit (SendMail (sender_address n) recipient_address message) w)) ;;;
      send_to n rest subject body
  end.

Definition send_notification (n : Notifier) (subject body : string) : M unit :=
  send_to n (recipients n) subject body.

Definition in_stock (link : string) : string :=
  (String Str.esc "[92m" ++ "IN STOCK: " ++ link)%string.
Definition out_of_stock (link : string) : string :=
  (String Str.esc "[91m" ++ "Out of Stock: " ++ link)%string.

(** [for link in links: ...] of [main]. *)
Fixpoint sweep (fuel : nat) (domains : dict entry) (notifier : Notifier)
  (links : list string) : M unit :=
  match links with
  | [] => ret tt
  | link :: rest =>
      found <- check_stock fuel domains link ;;
      (if found
       then send_notification notifier "Stock Alert" link ;;;
            print (in_stock link)
       else print (out_of_stock link)) ;;;
      sweep fuel domains notifier rest
  end.

(** The first [n] rounds of the [while True] loop of [main]. *)
Fixpoint sweeps (n fuel : nat) (domains : dict entry) (notifier : Notifier)
  (links : list string) : M unit :=
  match n with
  | O => ret tt
  | S n' =>
      sweep fuel domains notifier links ;;;
      delete_cookies ;;;
      sweeps n' fuel domains notifier links
  end.

End Scraper.

(** ** Vocabulary of the statements *)

(** The DOM that the [i]-th observation from now on will find. *)
Definition upcoming (w : world) (i : nat) : string := feed w (cursor w + i).

(** The two observations that round [k] of the polling loop makes, counted
    from the state [w] the loop starts in, have the same hash. *)
Definition stable_pair (py_hash : string -> Z) (w : world) (k : nat) : bool :=
  Z.eqb (py_hash (upcoming w (2 * k))) (py_hash (upcoming w (2 * k + 1))).

(** How many times the DOM was read for hashing. *)
Fixpoint dom_reads (l : list event) : nat :=
  match l with
  | [] => 0
  | ReadDom _ :: l' => S (dom_reads l')
  | _ :: l' => dom_reads l'
  end.

(** The state after one round of the loop: read, sleep, read. *)
Definition after_round (sleep_time : Z) (w : world) : world :=
  mkWorld (feed w) (bakes w) (S (S (cursor w))) (jar w)
    (log w ++ [ReadDom (feed w (cursor w)); Sleep sleep_time;
               ReadDom (feed w (S (cursor w)))]).

Fixpoint after_rounds (sleep_time : Z) (k : nat) (w : world) : world :=
  match k with
  | O => w
  | S k' => after_rounds sleep_time k' (after_round sleep_time w)
  end.

(** The state in which the loop starts: the page was asked for. *)
Definition navigated (link : string) (w : world) : world :=
  mkWorld (feed w) (bakes w) (cursor w) (jar w ++ bakes w link)
          (log w ++ [Navigate link]).

(** What [page_source] returns when the DOM is [dom]. *)
Definition html (dom : string) : string := ("<html>" ++ dom ++ "</html>")%string.

(** The domains dictionary as [json.load] hands it to [extract_domains]:
    every host is bound to its raw record. *)
Definition raw_dict (r : dict (dict (option string))) : dict entry :=
  map (fun kf => (fst kf, RawRecord (snd kf))) r.

(** The record has the three field names [extract_domains] subscripts. *)
Definition has_fields (fields : dict (option string)) : bool :=
  match dict_get "class_" fields, dict_get "id_" fields,
        dict_get "value_" fields with
  | Some _, Some _, Some _ => true
  | _, _, _ => false
  end.

(** What happens to one raw record, told without the dictionary around it:
    it becomes a [Domain], or a field name is missing, or the pattern does
    not compile. *)
Inductive conversion : Type :=
| Converted (d : Domain)
| Skipped
| Failed (h : halt).

Section PolicyVocabulary.

Variable re_beyond : string -> option (string -> bool).

Definition convert_record (fields : dict (option string)) : conversion :=
  match dict_get "class_" fields, dict_get "id_" fields,
        dict_get "value_" fields with
  | Some c, Some i, Some None => Converted (mkDomain c i None)
  | Some c, Some i, Some (Some raw) =>
      match py_compile re_beyond (".*" ++ raw ++ ".*")%string with
      | Some compiled => Converted (mkDomain c i (Some compiled))
      | None => Failed (Raised ReError)
      end
  | _, _, _ => Skipped
  end.

(** The records of [r] dealt with one after the other, [done] being the
    bindings already dealt with. *)
Fixpoint walk (r : dict (dict (option string))) (done : dict entry)
  : M (dict entry) :=
  match r with
  | [] => ret done
  | (k, fields) :: r' =>
      match convert_record fields with
      | Converted d => walk r' (done ++ [(k, DomainObj d)])
      | Skipped =>
          print format_error ;;; walk r' (done ++ [(k, RawRecord fields)])
      | Failed h => stop h
      end
  end.

(** The binding a record ends with when its pattern, if any, compiles. *)
Definition settled (fields : dict (option string)) : entry :=
  match convert_record fields with
  | Converted d => DomainObj d
  | _ => RawRecord fields
  end.

(** Every value that [extract_domains] gets to compile in [r] is a pattern
    that [re.compile] accepts. *)
Definition values_compile (r : dict (dict (option string))) : Prop :=
  forall k fields raw,
    In (k, fields) r ->
    has_fields fields = true ->
    dict_get "value_" fields = Some (Some raw) ->
    exists compiled,
      py_compile re_beyond (".*" ++ raw ++ ".*")%string = Some compiled.

(** The record has the three field names and its value, if any, compiles:
    [extract_domains] turns it into a [Domain]. *)
Definition convertible (fields : dict (option string)) : Prop :=
  exists d, convert_record fields = Converted d.

(** The bindings of a dictionary once [extract_domains] is through with
    it, when no pattern fails. *)
Definition settled_dict (r : dict (dict (option string))) : dict entry :=
  map (fun kf => (fst kf, settled (snd kf))) r.

End PolicyVocabulary.

(** [e] is the first element of [l] that [accepts] takes. *)
Definition first_of {A} (accepts : A -> bool) (l : list A) (e : A) : Prop :=
  exists before after,
    l = before ++ e :: after /\
    accepts e = true /\
    forall x, In x before -> accepts x = false.

(** What the driver was asked to do to the session: navigations and cookie
    deletions, in order. *)
Definition on_session (e : event) : bool :=
  match e with
  | Navigate _ | DeleteCookies => true
  | _ => false
  end.

Definition session_events (l : list event) : list event := filter on_session l.

(** The session events of one full sweep over [links]. *)
Definition sweep_events (links : list string) : list event :=
  map Navigate links ++ [DeleteCookies].

Definition world_of {A} (o : outcome A) : world :=
  match o with
  | Returns _ w => w
  | Stops _ w => w
  end.

(** Between [w] and [w'] nothing was asked of the session: no navigation,
    no cookie deleted or set. *)
Definition session_untouched (w w' : world) : Prop :=
  session_events (log w') = session_events (log w) /\
  jar w' = jar w /\
  bakes w' = bakes w.

(** How many records of [r] lack a field name. *)
Definition skipped_count (r : dict (dict (option string))) : nat :=
  List.length (filter (fun kf => negb (has_fields (snd kf))) r).



(** The events of [k] rounds of polling that start at observation [c] of
    the script [script]: read, sleep, read, round after round. *)
Fixpoint rounds_trace (sleep_time : Z) (script : nat -> string) (c k : nat)
  : list event :=
  match k with
  | O => []
  | S k' =>
      ReadDom (script c) :: Sleep sleep_time :: ReadDom (script (S c))
      :: rounds_trace sleep_time script (S (S c)) k'
  end.

(** The message [send_notification] builds for one recipient, and the mail
    it hands to the server. *)
Definition message_of (n : Notifier) (recipient subject body : string)
  : string :=
  ("From: " ++ sender_address n ++ Str.crlf
   ++ "To: " ++ recipient ++ Str.crlf
   ++ "Subject: " ++ subject ++ Str.crlf
   ++ Str.crlf
   ++ body)%string.

Definition mail_of (n : Notifier) (subject body recipient : string) : event :=
  SendMail (sender_address n) recipient (message_of n recipient subject body).

(** What [main] reports about one link, given the verdict of its check:
    the mails and the line "IN STOCK", or the line "Out of Stock". *)
Definition report_of (n : Notifier) (link : string) (verdict : bool)
  : list event :=
  if verdict
  then map (mail_of n "Stock Alert" link) (recipients n)
       ++ [Print (in_stock link)]
  else [Print (out_of_stock link)].

(** The state once the report on a link is made. *)
Definition reported (n : Notifier) (link : string) (verdict : bool)
  (w : world) : world :=
  mkWorld (feed w) (bakes w) (cursor w) (jar w)
          (log w ++ report_of n link verdict).

Section SweepVocabulary.

Variable py_hash : string -> Z.
Variable lxml : string -> Bs4.node.
Variable netloc : string -> option string.
Variable re_beyond : string -> option (string -> bool).

(** What [check_stock] returns for the links of a sweep, one after the
    other, each in the state in which the sweep comes to it; the list ends
    where a check does not return. *)
Fixpoint verdicts (fuel : nat) (domains : dict entry) (notifier : Notifier)
  (links : list string) (w : world) : list bool :=
  match links with
  | [] => []
  | link :: rest =>
      match check_stock py_hash lxml netloc re_beyond fuel domains link w with
      | Returns found w1 =>
          found :: verdicts fuel domains notifier rest
                     (reported notifier link found w1)
      | Stops _ _ => []
      end
  end.

End SweepVocabulary.

(** Mails and status lines; a status line starts with the escape character
    of its colour code. *)
Definition is_report (e : event) : bool :=
  match e with
  | SendMail _ _ _ => true
  | Print (String c _) => Ascii.eqb c Str.esc
  | _ => false
  end.

Definition reports (l : list event) : list event := filter is_report l.

(** ** The entry point

    [main] reads [info.json] and [pages.json], builds the notifier and the
    scraper and loops.  The two files are taken as [json.load] returns
    them, some of their keys possibly missing. *)

Record info_json : Type := mkInfo {
  info_sender_address : option string;
  info_sender_password : option string;
  info_recipients : option (list string);
  info_smtp_host : option string;
  info_smtp_port : option Z
}.

Record pages_json : Type := mkPages {
  pages_links : option (list string);
  pages_domains : option (dict (dict (option string)))
}.

(** What the constructors of [Notifier] and [Scraper] do outside the render
    session. *)
Inductive setup_event : Type :=
| SmtpConnect (host : string) (port : Z)      (* smtplib.SMTP(host, port) *)
| SmtpStartTls                                (* server.starttls() *)
| SmtpLogin (address password : string)       (* server.login(...) *)
| ChromeStart (prefs : list (string * Z)) (arguments : list string).

(** [Notifier.start_server] and [Scraper.start_driver]. *)
Definition start_server (host : string) (port : Z) (address password : string)
  : list setup_event :=
  [SmtpConnect host port; SmtpStartTls; SmtpLogin address password].

Definition start_driver : list setup_event :=
  [ChromeStart [("profile.managed_default_content_settings.images", 2%Z)]
               ["log-level=3"]].

Definition pages_error : string :=
  "Missing or modified key name in pages.json.".
Definition info_error : string :=
  "Missing or modified key name in info.json.".

(** How a run of [main] ends, as far as it is followed. *)
Inductive main_end : Type :=
| Looped (o : outcome unit)                  (* the first rounds of the loop *)
| UnboundLocal (name : string) (w : world)   (* UnboundLocalError *)
| Uncaught (h : halt) (w : world).           (* out of extract_domains *)

(** The first [try]: [links] and [domains] as they are bound after it, or
    the exception that [except KeyError] lets through. *)
Definition read_pages (re_beyond : string -> option (string -> bool))
  (pages : pages_json) (w : world)
  : (halt * world)
    + (option (list string) * option (dict entry) * world) :=
  match pages_links pages with
  | None => inr (None, None, emit (Print pages_error) w)
  | Some links =>
      match pages_domains pages with
      | None => inr (Some links, None, emit (Print pages_error) w)
      | Some r =>
          match extract_domains re_beyond (raw_dict r) w with
          | Returns domains w' => inr (Some links, Some domains, w')
          | Stops (Raised KeyError) w' =>
              inr (Some links, None, emit (Print pages_error) w')
          | Stops h w' => inl (h, w')
          end
      end
  end.

(** The second [try]: the five names in the order they are assigned; the
    first missing key leaves the names from there on unbound. *)
Definition read_info (info : info_json)
  : option string * option string * option (list string)
    * option string * option Z :=
  match info_sender_address info with
  | None => (None, None, None, None, None)
  | Some a =>
  match info_sender_password info with
  | None => (Some a, None, None, None, None)
  | Some p =>
  match info_recipients info with
  | None => (Some a, Some p, None, None, None)
  | Some r =>
  match info_smtp_host info with
  | None => (Some a, Some p, Some r, None, None)
  | Some h => (Some a, Some p, Some r, Some h, info_smtp_port info)
  end end end end.

Section Main.

Variable py_hash : string -> Z.
Variable lxml : string -> Bs4.node.
Variable netloc : string -> option string.
Variable re_beyond : string -> option (string -> bool).

(** [main], its loop followed for [n] rounds.  The first component is what
    was set up outside the session. *)
Definition main (n fuel : nat) (info : info_json) (pages : pages_json)
  (w : world) : list setup_event * main_end :=
  match read_pages re_beyond pages w with
  | inl (h, w1) => ([], Uncaught h w1)
  | inr (links, domains, w1) =>
      let '(sender_address, sender_password, recipients, smtp_host,
            smtp_port) := read_info info in
      let w2 :=
        match smtp_port with
        | Some _ => w1
        | None => emit (Print info_error) w1
        end in
      (* Notifier(smtp_host, smtp_port, sender_address, sender_password,
                  recipients) *)
      match smtp_host with
      | None => ([], UnboundLocal "smtp_host" w2)
      | Some host =>
      match smtp_port with
      | None => ([], UnboundLocal "smtp_port" w2)
      | Some port =>
      match sender_address with
      | None => ([], UnboundLocal "sender_address" w2)
      | Some address =>
      match sender_password with
      | None => ([], UnboundLocal "sender_password" w2)
      | Some password =>
      match recipients with
      | None => ([], UnboundLocal "recipients" w2)
      | Some to =>
          let notifier := mkNotifier address to in
          let setup := start_server host port address password in
          (* Scraper(domains) *)
          match domains with
          | None => (setup, UnboundLocal "domains" w2)
          | Some domains =>
              let setup := setup ++ start_driver in
              match links with
              | None => (setup, UnboundLocal "links" w2)
              | Some links =>
                  (setup,
                   Looped (sweeps py_hash lxml netloc re_beyond n fuel domains
                             notifier links w2))
              end
          end
      end end end end end
  end.

End Main.

(** None of the five keys of [info.json] is missing. *)
Definition info_complete (info : info_json) : bool :=
  match info_sender_address info, info_sender_password info,
        info_recipients info, info_smtp_host info, info_smtp_port info with
  | Some _, Some _, Some _, Some _, Some _ => true
  | _, _, _, _, _ => false
  end.


(** ** Sessions and pages for the examples *)

Module Fixture.

(** A stand-in for [hash] in the examples: it tells the pages they use
    apart. *)
Fixpoint poly_hash_from (h : Z) (s : string) : Z :=
  match s with
  | EmptyString => h
  | String c s' => poly_hash_from (31 * h + Z.of_nat (nat_of_ascii c)) s'
  end.
Definition poly_hash (s : string) : Z := poly_hash_from 7 s.

(** A fresh session that shows the pages [doms] one observation after the
    other and [final] ever after; no site sets a cookie. *)
Definition scripted (doms : list string) (final : string) : world :=
  mkWorld (fun i => nth i doms final) (fun _ => []) 0 [] [].

(** A fresh session whose page flips between [a] and [b] during the first
    [n] rounds of polling and shows [a] from then on. *)
Definition restless (a b : string) (n : nat) : world :=
  mkWorld (fun i => if (i <? 2 * n)%nat then if Nat.even i then a else b else a)
          (fun _ => []) 0 [] [].

(** A fresh session that shows the page [dom] all the time. *)
Definition still (dom : string) : world := scripted [] dom.

(** [urlparse(link).netloc] for links of the form [scheme://host/...]: what
    lies between the first [//] and the next [/], [?] or [#]; [urlparse]
    raises [ValueError] when only one of the two brackets stands in it. *)
Fixpoint after_slashes (s : string) : string :=
  match s with
  | EmptyString => EmptyString
  | String "/" (String "/" rest) => rest
  | String _ s' => after_slashes s'
  end.

Fixpoint until_delimiter (s : string) : string :=
  match s with
  | EmptyString => EmptyString
  | String c s' =>
      if existsb (Ascii.eqb c) ["/"; "?"; "#"]%char then EmptyString
      else String c (until_delimiter s')
  end.

Definition netloc (link : string) : option string :=
  let host := until_delimiter (after_slashes link) in
  if Bool.eqb (Str.contains "[" host) (Str.contains "]" host)
  then Some host
  else None.    (* ValueError: Invalid IPv6 URL *)

(** What [re] does with the one pattern outside the fragment that the
    examples use: [.*$9.99.*] compiles, and its [search] finds no string,
    since nothing can follow the end of a string.  The examples compile no
    other pattern outside the fragment. *)
Definition beyond (source : string) : option (string -> bool) :=
  if String.eqb source ".*$9.99.*" then Some (fun _ => false) else None.

(** A link on which [urlparse] raises [ValueError]. *)
Definition bad_link : string := "https://[shop.example.com/item".

(** A listing with two prices, the second one sold out. *)
Definition two_prices : string :=
  "<head></head><body><div class='price'>10</div><div class='price'>SOLD</div></body>".

Definition two_prices_soup : Bs4.node :=
  Bs4.Tag "[document]" None None
    [Bs4.Tag "html" None None
       [Bs4.Tag "head" None None [];
        Bs4.Tag "body" None None
          [Bs4.Tag "div" (Some ["price"]) None [Bs4.NavigableString "10"];
           Bs4.Tag "div" (Some ["price"]) None [Bs4.NavigableString "SOLD"]]]].

(** A page with an element of id [stock] and no element of class [stock]. *)
Definition stock_by_id : string :=
  "<head></head><body><span id='stock'>In Stock</span></body>".

Definition stock_by_id_soup : Bs4.node :=
  Bs4.Tag "[document]" None None
    [Bs4.Tag "html" None None
       [Bs4.Tag "head" None None [];
        Bs4.Tag "body" None None
          [Bs4.Tag "span" None (Some "stock")
             [Bs4.NavigableString "In Stock"]]]].

Definition empty_soup : Bs4.node := Bs4.Tag "[document]" None None [].

(** The trees [BeautifulSoup(markup, "lxml")] builds for the pages above;
    the examples parse no other markup. *)
Definition lxml (markup : string) : Bs4.node :=
  if String.eqb markup (html two_prices) then two_prices_soup
  else if String.eqb markup (html stock_by_id) then stock_by_id_soup
  else empty_soup.

(** A link of the shop and the pattern compiled from the value "SOLD". *)
Definition shop_item : string := "https://shop.example.com/item".


End Fixture.

(** * Properties *)

(** ** Strings *)

Module StrFacts.
Import Str.

Lemma startswith_iff pre s :
  startswith pre s = true <-> exists rest, s = (pre ++ rest)%string.
Proof.
  revert s; induction pre as [|a pre IH]; intros s; simpl.
  - split; [intros _; now exists s | reflexivity].
  - destruct s as [|b s].
    + split; [discriminate | intros [rest H]; discriminate].
    + rewrite andb_true_iff, Ascii.eqb_eq, IH. split.
      * intros [-> [rest ->]]. now exists rest.
      * intros [rest H]. injection H as -> ->. split; [reflexivity | now exists rest].
Qed.

Lemma contains_iff sub s : contains sub s = true <-> occurs_in sub s.
Proof.
  unfold occurs_in. induction s as [|b s IH].
  - simpl. rewrite orb_false_r, startswith_iff. split.
    + intros [rest H]. exists EmptyString, rest. exact H.
    + intros [[|x before] [after H]]; [now exists after | discriminate].
  - cbn [contains]. rewrite orb_true_iff, startswith_iff, IH. split.
    + intros [[rest H] | [before [after H]]].
      * exists EmptyString, rest. exact H.
      * exists (String b before), after. simpl. now rewrite H.
    + intros [[|x before] [after H]].
      * left. now exists after.
      * right. simpl in H. injection H as _ H. now exists before, after.
Qed.

Lemma append_assoc (a b c : string) :
  ((a ++ b) ++ c = a ++ (b ++ c))%string.
Proof. induction a as [|x a IH]; simpl; [reflexivity | now rewrite IH]. Qed.

Lemma occurs_in_self sub after : occurs_in sub (sub ++ after)%string.
Proof. now exists EmptyString, after. Qed.

End StrFacts.

(** ** The pattern built from a configured value *)

Module ReFacts.
Import Re.

Lemma plain_char_inv c :
  plain_char c = true ->
  quant_of c = None /\ Ascii.eqb c "." = false /\ beyond c = false.
Proof.
  unfold plain_char. rewrite !andb_true_iff, !negb_true_iff.
  intros [[H1 H2] H3]. destruct (quant_of c); [discriminate | auto].
Qed.

Lemma parse_literal s : forall acc rest,
  plain s = true ->
  parse acc (s ++ rest)%string = parse (rev (literal s) ++ acc) rest.
Proof.
  induction s as [|c s IH]; intros acc rest Hs; simpl in *.
  - reflexivity.
  - apply andb_true_iff in Hs as [Hc Hs].
    destruct (plain_char_inv c Hc) as (-> & -> & ->).
    rewrite IH by assumption. now rewrite <- app_assoc.
Qed.

(** After a first repetition mark, what follows a plain string is never
    read as a lazy or possessive mark. *)
Lemma parse_star_then_plain a acc s rest :
  plain s = true ->
  parse ((a, One) :: acc) (String "*" (s ++ String "." rest))
  = parse ((a, Star) :: acc) (s ++ String "." rest)%string.
Proof.
  intros Hs. cbn [parse quant_of]. simpl Ascii.eqb. cbv iota.
  destruct s as [|c s]; [reflexivity|].
  simpl in Hs. apply andb_true_iff in Hs as [Hc _].
  destruct (plain_char_inv c Hc) as (Hq & _ & _).
  simpl append.
  destruct c as [[] [] [] [] [] [] [] []]; try reflexivity; discriminate Hq.
Qed.

Lemma compile_wrapped raw :
  plain raw = true ->
  compile (".*" ++ raw ++ ".*")
  = Compiled ((Dot, Star) :: literal raw ++ [(Dot, Star)]).
Proof.
  intros Hraw. unfold compile.
  change (".*" ++ raw ++ ".*")%string
    with (String "." (String "*" (raw ++ String "." "*")))%string.
  change (parse [] (String "." (String "*" (raw ++ String "." "*"))))
    with (parse [(Dot, One)] (String "*" (raw ++ String "." "*"))).
  rewrite parse_star_then_plain by assumption.
  rewrite parse_literal by assumption.
  simpl. rewrite rev_app_distr, rev_involutive. reflexivity.
Qed.

Lemma match_here_literal raw p s :
  match_here (literal raw ++ p) s = true <->
  exists rest, s = (raw ++ rest)%string /\ match_here p rest = true.
Proof.
  revert s; induction raw as [|c raw IH]; intros s.
  - simpl. split; [intros H; now exists s | intros [rest [-> H]]; exact H].
  - cbn [literal app match_here atom_matches]. destruct s as [|b s].
    + split; [discriminate | intros [rest [H _]]; discriminate].
    + rewrite andb_true_iff, Ascii.eqb_eq, IH. split.
      * intros [-> [rest [-> H]]]. now exists rest.
      * intros [rest [H1 H2]]. simpl in H1. injection H1 as -> ->.
        split; [reflexivity | now exists rest].
Qed.

Lemma repeat_atom_now a k s : k s = true -> repeat_atom a k s = true.
Proof. intros H. destruct s; simpl; now rewrite H. Qed.

Lemma repeat_atom_split a k s :
  repeat_atom a k s = true ->
  exists eaten rest, s = (eaten ++ rest)%string /\ k rest = true.
Proof.
  induction s as [|c s IH]; cbn [repeat_atom]; rewrite orb_true_iff.
  - intros [H | H]; [now exists EmptyString, EmptyString | discriminate].
  - intros [H | H].
    + now exists EmptyString, (String c s).
    + apply andb_true_iff in H as [_ H].
      destruct (IH H) as (eaten & rest & -> & Hk).
      now exists (String c eaten), rest.
Qed.

Lemma search_iff p s :
  search p s = true <->
  exists skipped rest, s = (skipped ++ rest)%string /\ match_here p rest = true.
Proof.
  induction s as [|c s IH]; cbn [search]; rewrite orb_true_iff.
  - split.
    + intros [H | H]; [now exists EmptyString, EmptyString | discriminate].
    + intros [[|x skipped] (rest & H & Hm)]; [|discriminate].
      simpl in H. subst rest. now left.
  - rewrite IH. split.
    + intros [H | (skipped & rest & -> & Hm)].
      * now exists EmptyString, (String c s).
      * now exists (String c skipped), rest.
    + intros [[|x skipped] (rest & H & Hm)].
      * simpl in H. subst rest. now left.
      * simpl in H. injection H as _ ->. right. now exists skipped, rest.
Qed.

(** Searching with [.*raw.*], [raw] read literally, is looking for [raw]
    anywhere in the text. *)
Lemma search_wrapped_literal raw text :
  search ((Dot, Star) :: literal raw ++ [(Dot, Star)]) text = true <->
  Str.occurs_in raw text.
Proof.
  rewrite search_iff. split.
  - intros (skipped & rest & -> & Hm).
    cbn [match_here] in Hm.
    apply repeat_atom_split in Hm as (eaten & rest' & -> & Hm).
    apply match_here_literal in Hm as (after & -> & _).
    exists (skipped ++ eaten)%string, after.
    now rewrite StrFacts.append_assoc.
  - intros (before & after & ->).
    exists before, (raw ++ after)%string. split; [reflexivity|].
    cbn [match_here]. apply repeat_atom_now.
    apply match_here_literal. exists after. split; [reflexivity|].
    cbn [match_here]. now apply repeat_atom_now.
Qed.

End ReFacts.

(** ** The stabilization loop *)

Section Stabilization.

Variable py_hash : string -> Z.

Lemma emit_log e w : log (emit e w) = log w ++ [e].
Proof. reflexivity. Qed.

Lemma dom_reads_app l1 l2 : dom_reads (l1 ++ l2) = dom_reads l1 + dom_reads l2.
Proof.
  induction l1 as [|e l1 IH]; [reflexivity|].
  destruct e; simpl; now rewrite IH.
Qed.

(** One round of the loop, as the model runs it. *)
Lemma poll_round fuel t a b w :
  hash_ne a b = true ->
  poll py_hash (S fuel) t a b w
  = poll py_hash fuel t (HInt (py_hash (feed w (cursor w))))
         (HInt (py_hash (feed w (S (cursor w))))) (after_round t w).
Proof.
  intros Hne. cbn [poll]. rewrite Hne.
  unfold bind, get_page_hash, inner_html, sleep, ret, bind, observe, emit,
    after_round.
  cbn. repeat rewrite <- app_assoc. reflexivity.
Qed.

Lemma after_round_facts t w :
  feed (after_round t w) = feed w /\
  cursor (after_round t w) = cursor w + 2 /\
  bakes (after_round t w) = bakes w /\
  jar (after_round t w) = jar w /\
  dom_reads (log (after_round t w)) = dom_reads (log w) + 2.
Proof.
  unfold after_round; cbn. rewrite dom_reads_app. cbn.
  repeat split; lia.
Qed.

Lemma after_rounds_facts t k : forall w,
  feed (after_rounds t k w) = feed w /\
  cursor (after_rounds t k w) = cursor w + 2 * k /\
  bakes (after_rounds t k w) = bakes w /\
  jar (after_rounds t k w) = jar w /\
  dom_reads (log (after_rounds t k w)) = dom_reads (log w) + 2 * k.
Proof.
  induction k as [|k IH]; intros w; cbn [after_rounds].
  - repeat split; lia.
  - destruct (IH (after_round t w)) as (F & C & B & J & R).
    destruct (after_round_facts t w) as (F' & C' & B' & J' & R').
    rewrite F, C, B, J, R, F', C', B', J', R'. repeat split; lia.
Qed.

Lemma stable_pair_shift t w k :
  stable_pair py_hash (after_round t w) k = stable_pair py_hash w (S k).
Proof.
  unfold stable_pair, upcoming, after_round; cbn [feed cursor].
  replace (S (S (cursor w)) + 2 * k) with (cursor w + 2 * S k) by lia.
  replace (S (S (cursor w)) + (2 * k + 1)) with (cursor w + (2 * S k + 1))
    by lia.
  reflexivity.
Qed.

Lemma hash_ne_first_round w :
  hash_ne (HInt (py_hash (feed w (cursor w))))
          (HInt (py_hash (feed w (S (cursor w)))))
  = negb (stable_pair py_hash w 0).
Proof.
  unfold stable_pair, upcoming, hash_ne.
  replace (cursor w + 2 * 0) with (cursor w) by lia.
  replace (cursor w + (2 * 0 + 1)) with (S (cursor w)) by lia. reflexivity.
Qed.

(** The loop leaves exactly at the first round whose two observations hash
    alike; until then it goes on. *)
Lemma poll_runs fuel t : forall a b w,
  hash_ne a b = true ->
  (forall k, k < fuel -> stable_pair py_hash w k = false) ->
  poll py_hash fuel t a b w = Stops Polling (after_rounds t fuel w).
Proof.
  induction fuel as [|fuel IH]; intros a b w Hne Hall.
  - cbn. now rewrite Hne.
  - rewrite poll_round by assumption. cbn [after_rounds]. apply IH.
    + rewrite hash_ne_first_round, Hall by lia. reflexivity.
    + intros k Hk. rewrite stable_pair_shift. apply Hall. lia.
Qed.

Lemma poll_leaves t k : forall fuel a b w,
  hash_ne a b = true ->
  k < fuel ->
  (forall j, j < k -> stable_pair py_hash w j = false) ->
  stable_pair py_hash w k = true ->
  poll py_hash fuel t a b w = Returns tt (after_rounds t (S k) w).
Proof.
  induction k as [|k IH]; intros fuel a b w Hne Hlt Hbefore Hk;
    (destruct fuel as [|fuel]; [lia|]); rewrite poll_round by assumption.
  - destruct fuel; cbn [poll after_rounds];
      rewrite hash_ne_first_round, Hk; reflexivity.
  - change (after_rounds t (S (S k)) w)
      with (after_rounds t (S k) (after_round t w)).
    apply IH.
    + rewrite hash_ne_first_round, Hbefore by lia. reflexivity.
    + lia.
    + intros j Hj. rewrite stable_pair_shift. apply Hbefore. lia.
    + now rewrite stable_pair_shift.
Qed.

(** Among the rounds below [n], either none is stable or there is a first
    stable one. *)
Lemma first_stable w n :
  (forall k, k < n -> stable_pair py_hash w k = false) \/
  (exists k, k < n /\ stable_pair py_hash w k = true /\
             forall j, j < k -> stable_pair py_hash w j = false).
Proof.
  induction n as [|n [IH | (k & Hk & Hs & Hb)]].
  - left. intros k Hk. lia.
  - destruct (stable_pair py_hash w n) eqn:E.
    + right. exists n. repeat split; [lia | assumption | assumption].
    + left. intros k Hk. destruct (Nat.eq_dec k n) as [-> | ?];
        [assumption | apply IH; lia].
  - right. exists k. repeat split; [lia | assumption | assumption].
Qed.

Lemma stable_pair_navigated link w k :
  stable_pair py_hash (navigated link w) k = stable_pair py_hash w k.
Proof. reflexivity. Qed.

Lemma get_loaded_page_unfold fuel link t w :
  get_loaded_page py_hash fuel link t w
  = match poll py_hash fuel t (HStr "empty") (HStr "") (navigated link w) with
    | Returns _ w' => page_source w'
    | Stops h w' => Stops h w'
    end.
Proof. reflexivity. Qed.

Lemma get_loaded_page_runs fuel link t w :
  (forall k, k < fuel -> stable_pair py_hash w k = false) ->
  get_loaded_page py_hash fuel link t w
  = Stops Polling (after_rounds t fuel (navigated link w)).
Proof.
  intros Hall. rewrite get_loaded_page_unfold.
  now rewrite (poll_runs fuel t _ _ (navigated link w)).
Qed.

Lemma get_loaded_page_leaves fuel link t w k :
  k < fuel ->
  (forall j, j < k -> stable_pair py_hash w j = false) ->
  stable_pair py_hash w k = true ->
  get_loaded_page py_hash fuel link t w
  = page_source (after_rounds t (S k) (navigated link w)).
Proof.
  intros Hlt Hbefore Hk. rewrite get_loaded_page_unfold.
  now rewrite (poll_leaves t k fuel _ _ (navigated link w)).
Qed.


Lemma page_source_after t k w :
  exists w',
    page_source (after_rounds t k w) = Returns (html (upcoming w (2 * k))) w' /\
    log w' = log (after_rounds t k w) ++ [ReadSource (html (upcoming w (2 * k)))].
Proof.
  destruct (after_rounds_facts t k w) as (F & C & _).
  unfold page_source, observe, html, upcoming. rewrite F, C.
  eexists. split; reflexivity.
Qed.

(** C6: the loop has no bound of its own.  Following it for [fuel] rounds,
    it has returned exactly when one of those rounds saw two DOM samples with
    equal hashes; the first such round [k] is its last, after [2 * (k + 1)]
    readings; on a session where no round ever sees an equal pair it is still
    polling after any number of rounds; and for every [n] there is a session
    that keeps it polling for [n] rounds and lets it return in the next. *)
Theorem get_loaded_page_no_bound link t w :
  (forall fuel,
     (exists markup w',
        get_loaded_page py_hash fuel link t w = Returns markup w') <->
     (exists k, k < fuel /\ stable_pair py_hash w k = true)) /\
  (forall fuel k,
     k < fuel ->
     stable_pair py_hash w k = true ->
     (forall j, j < k -> stable_pair py_hash w j = false) ->
     exists w',
       get_loaded_page py_hash fuel link t w
       = Returns (html (upcoming w (2 * S k))) w' /\
       dom_reads (log w') = dom_reads (log w) + 2 * S k) /\
  ((forall k, stable_pair py_hash w k = false) ->
   forall fuel,
     get_loaded_page py_hash fuel link t w
     = Stops Polling (after_rounds t fuel (navigated link w))) /\
  (forall a b n,
     py_hash a <> py_hash b ->
     get_loaded_page py_hash n link t (Fixture.restless a b n)
     = Stops Polling
         (after_rounds t n (navigated link (Fixture.restless a b n))) /\
     exists w',
       get_loaded_page py_hash (S n) link t (Fixture.restless a b n)
       = Returns (html a) w').
Proof.
  assert (Leaves : forall fuel k,
     k < fuel ->
     stable_pair py_hash w k = true ->
     (forall j, j < k -> stable_pair py_hash w j = false) ->
     exists w',
       get_loaded_page py_hash fuel link t w
       = Returns (html (upcoming w (2 * S k))) w' /\
       dom_reads (log w') = dom_reads (log w) + 2 * S k).
  { intros fuel k Hlt Hk Hbefore.
    rewrite (get_loaded_page_leaves fuel link t w k) by assumption.
    destruct (page_source_after t (S k) (navigated link w)) as (w' & E & L).
    exists w'. split; [exact E|].
    rewrite L, dom_reads_app.
    destruct (after_rounds_facts t (S k) (navigated link w)) as (_ & _ & _ & _ & R).
    rewrite R. cbn [navigated log]. rewrite dom_reads_app. cbn. lia. }
  split; [|split; [exact Leaves|split]].
  - intros fuel. split.
    + intros (markup & w' & E).
      destruct (first_stable w fuel) as [Hall | (k & Hk & Hs & _)].
      * rewrite get_loaded_page_runs in E by assumption. discriminate.
      * now exists k.
    + intros (k & Hk & Hs).
      destruct (first_stable w (S k)) as [Hall | (k0 & Hk0 & Hs0 & Hb0)].
      * rewrite Hall in Hs by lia. discriminate.
      * destruct (Leaves fuel k0) as (w' & E & _); try assumption; [lia|].
        eauto.
  - intros Hnever fuel. apply get_loaded_page_runs. intros k _. apply Hnever.
  - intros a b n Hab.
    assert (Flip : forall k, k < n ->
              stable_pair py_hash (Fixture.restless a b n) k = false).
    { intros k Hk. unfold stable_pair, upcoming, Fixture.restless.
      cbn [feed cursor]. rewrite !Nat.add_0_l.
      destruct (Nat.ltb_spec (2 * k) (2 * n)); [|lia].
      destruct (Nat.ltb_spec (2 * k + 1) (2 * n)); [|lia].
      rewrite Nat.add_1_r, Nat.even_succ, Nat.odd_even, Nat.even_even.
      now apply Z.eqb_neq. }
    assert (Rest : stable_pair py_hash (Fixture.restless a b n) n = true).
    { unfold stable_pair, upcoming, Fixture.restless.
      cbn [feed cursor]. rewrite !Nat.add_0_l.
      destruct (Nat.ltb_spec (2 * n) (2 * n)); [lia|].
      destruct (Nat.ltb_spec (2 * n + 1) (2 * n)); [lia|].
      apply Z.eqb_refl. }
    split.
    + now apply get_loaded_page_runs.
    + rewrite (get_loaded_page_leaves (S n) link t _ n) by (auto; lia).
      destruct (page_source_after t (S n) (navigated link (Fixture.restless a b n)))
        as (w' & E & _).
      exists w'. rewrite E. f_equal. f_equal.
      unfold upcoming, Fixture.restless, navigated.
      cbn [feed cursor]. rewrite Nat.add_0_l.
      destruct (Nat.ltb_spec (2 * S n) (2 * n)); [lia|].
      reflexivity.
Qed.


Lemma upcoming_succ w i : upcoming w i = feed w (i + cursor w).
Proof. unfold upcoming. now rewrite Nat.add_comm. Qed.

(** C2, as the loop is written: every round reads the DOM twice anew and
    compares the two readings; the second reading of a round is not kept as
    the baseline of the next.  On a session whose first readings are [A, A]
    the loop is left after one pair; on one whose first readings are
    [A, B, B, B], with [A] and [B] hashing differently, after two pairs, that
    is four readings.  What is returned is [page_source], asked for after the
    loop. *)
Theorem get_loaded_page_fresh_pairs link t w A B fuel :
  (upcoming w 0 = A -> upcoming w 1 = A ->
   exists w',
     get_loaded_page py_hash (S fuel) link t w
     = Returns (html (upcoming w 2)) w' /\
     log w' = log w ++ [Navigate link; ReadDom A; Sleep t; ReadDom A;
                        ReadSource (html (upcoming w 2))]) /\
  (py_hash A <> py_hash B ->
   upcoming w 0 = A -> upcoming w 1 = B ->
   upcoming w 2 = B -> upcoming w 3 = B ->
   exists w',
     get_loaded_page py_hash (S (S fuel)) link t w
     = Returns (html (upcoming w 4)) w' /\
     log w' = log w ++ [Navigate link; ReadDom A; Sleep t; ReadDom B;
                        ReadDom B; Sleep t; ReadDom B;
                        ReadSource (html (upcoming w 4))]).
Proof.
  split.
  - intros H0 H1.
    assert (Hs : stable_pair py_hash w 0 = true).
    { unfold stable_pair. cbn [Nat.mul Nat.add]. rewrite H0, H1.
      apply Z.eqb_refl. }
    rewrite (get_loaded_page_leaves (S fuel) link t w 0);
      [| lia | intros j Hj; lia | exact Hs].
    destruct (page_source_after t 1 (navigated link w)) as (w' & E & L).
    exists w'. split; [exact E|].
    rewrite L. rewrite upcoming_succ in H0, H1. cbn in H0, H1.
    cbn. rewrite H0, H1. now rewrite <- !app_assoc.
  - intros Hab H0 H1 H2 H3.
    assert (Hu : stable_pair py_hash w 0 = false).
    { unfold stable_pair. cbn [Nat.mul Nat.add]. rewrite H0, H1.
      now apply Z.eqb_neq. }
    assert (Hs : stable_pair py_hash w 1 = true).
    { unfold stable_pair. cbn [Nat.mul Nat.add]. rewrite H2, H3.
      apply Z.eqb_refl. }
    rewrite (get_loaded_page_leaves (S (S fuel)) link t w 1);
      [| lia | | exact Hs].
    2:{ intros j Hj. replace j with 0 by lia. exact Hu. }
    destruct (page_source_after t 2 (navigated link w)) as (w' & E & L).
    exists w'. split; [exact E|].
    rewrite L. rewrite upcoming_succ in H0, H1, H2, H3.
    cbn in H0, H1, H2, H3.
    cbn. rewrite H0, H1, H2, H3. now rewrite <- !app_assoc.
Qed.

End Stabilization.

Lemma get_loaded_page_no_bound_witness :
  get_loaded_page Fixture.poly_hash 3 "https://shop.example.com/x" 2
    (Fixture.restless "a" "b" 3)
  = Stops Polling
      (after_rounds 2 3
         (navigated "https://shop.example.com/x" (Fixture.restless "a" "b" 3)))
  /\ exists w',
       get_loaded_page Fixture.poly_hash 4 "https://shop.example.com/x" 2
         (Fixture.restless "a" "b" 3)
       = Returns (html "a") w'.
Proof.
  apply (proj2 (proj2 (proj2
    (get_loaded_page_no_bound Fixture.poly_hash
       "https://shop.example.com/x" 2 (Fixture.restless "a" "b" 3))))).
  vm_compute. discriminate.
Defined.

Lemma get_loaded_page_fresh_pairs_witness :
  exists w',
    get_loaded_page Fixture.poly_hash 2 "https://shop.example.com/x" 2
      (Fixture.scripted ["A"; "B"; "B"; "B"] "B")
    = Returns (html "B") w' /\
    log w' = [Navigate "https://shop.example.com/x";
              ReadDom "A"; Sleep 2; ReadDom "B";
              ReadDom "B"; Sleep 2; ReadDom "B";
              ReadSource (html "B")].
Proof.
  apply (proj2 (get_loaded_page_fresh_pairs Fixture.poly_hash
                  "https://shop.example.com/x" 2
                  (Fixture.scripted ["A"; "B"; "B"; "B"] "B") "A" "B" 0)).
  - vm_compute. discriminate.
  - reflexivity.
  - reflexivity.
  - reflexivity.
  - reflexivity.
Defined.

(** C2, against the reading that the new sample becomes the next baseline:
    on a session whose readings start [A, B, B] and go on with [C], the loop
    compares [A] with [B], then [B] with [C], then [C] with [C]; after two
    pairs it is still polling and it returns after three. *)
Lemma third_reading_is_not_a_baseline :
  let w := Fixture.scripted ["A"; "B"; "B"] "C" in
  upcoming w 0 = "A" /\ upcoming w 1 = "B" /\ upcoming w 2 = "B" /\
  (exists w',
     get_loaded_page Fixture.poly_hash 2 "https://shop.example.com/x" 2 w
     = Stops Polling w' /\
     log w' = [Navigate "https://shop.example.com/x";
               ReadDom "A"; Sleep 2; ReadDom "B";
               ReadDom "B"; Sleep 2; ReadDom "C"]) /\
  (exists w',
     get_loaded_page Fixture.poly_hash 3 "https://shop.example.com/x" 2 w
     = Returns (html "C") w' /\
     log w' = [Navigate "https://shop.example.com/x";
               ReadDom "A"; Sleep 2; ReadDom "B";
               ReadDom "B"; Sleep 2; ReadDom "C";
               ReadDom "C"; Sleep 2; ReadDom "C";
               ReadSource (html "C")]).
Proof.
  cbv zeta. repeat split.
  - vm_compute. eexists. split; reflexivity.
  - vm_compute. eexists. split; reflexivity.
Qed.

(** ** Building the policies *)

Section Dictionaries.

Context {V : Type}.

Lemma dict_get_app_skip k (d1 d2 : dict V) :
  ~ In k (dict_keys d1) -> dict_get k (d1 ++ d2) = dict_get k d2.
Proof.
  induction d1 as [|[k' v'] d1 IH]; intros Hk; [reflexivity|].
  cbn in *. destruct (String.eqb_spec k k') as [-> | _].
  - exfalso. apply Hk. now left.
  - apply IH. intros H. apply Hk. now right.
Qed.

Lemma dict_get_here k v (d : dict V) : dict_get k ((k, v) :: d) = Some v.
Proof. cbn. now rewrite String.eqb_refl. Qed.

Lemma dict_set_app_skip k v (d1 d2 : dict V) :
  ~ In k (dict_keys d1) -> dict_set k v (d1 ++ d2) = d1 ++ dict_set k v d2.
Proof.
  induction d1 as [|[k' v'] d1 IH]; intros Hk; [reflexivity|].
  cbn in *. destruct (String.eqb_spec k k') as [-> | _].
  - exfalso. apply Hk. now left.
  - f_equal. apply IH. intros H. apply Hk. now right.
Qed.

Lemma dict_set_here k v v' (d : dict V) :
  dict_set k v ((k, v') :: d) = (k, v) :: d.
Proof. cbn. now rewrite String.eqb_refl. Qed.

Lemma dict_keys_app (d1 d2 : dict V) :
  dict_keys (d1 ++ d2) = dict_keys d1 ++ dict_keys d2.
Proof. apply map_app. Qed.


End Dictionaries.

Lemma raw_dict_keys r : dict_keys (raw_dict r) = dict_keys r.
Proof. unfold raw_dict, dict_keys. rewrite map_map. reflexivity. Qed.

Lemma raw_dict_app r1 r2 : raw_dict (r1 ++ r2) = raw_dict r1 ++ raw_dict r2.
Proof. apply map_app. Qed.

Section Policies.

Variable re_beyond : string -> option (string -> bool).

(** The [try] block on a raw record changes the binding of its key, and
    nothing else. *)
Lemma try_convert_record key fields done rest :
  ~ In key (dict_keys done) ->
  try_convert re_beyond key (RawRecord fields)
    (done ++ (key, RawRecord fields) :: rest)
  = match convert_record re_beyond fields with
    | Converted d => inr (done ++ (key, DomainObj d) :: rest)
    | Skipped => inl (Raised KeyError)
    | Failed h => inl h
    end.
Proof.
  intros Hk. unfold try_convert, convert_record.
  destruct (dict_get "class_" fields) as [c|]; [|reflexivity].
  destruct (dict_get "id_" fields) as [i|]; [|reflexivity].
  destruct (dict_get "value_" fields) as [[raw|]|]; [| |reflexivity].
  - destruct (py_compile re_beyond _); [|reflexivity].
    rewrite !dict_set_app_skip, !dict_set_here by assumption. reflexivity.
  - rewrite !dict_set_app_skip, !dict_set_here by assumption. reflexivity.
Qed.

Lemma convert_record_failed fields h :
  convert_record re_beyond fields = Failed h -> h <> Raised KeyError.
Proof.
  unfold convert_record.
  destruct (dict_get "class_" fields) as [c|]; [|discriminate].
  destruct (dict_get "id_" fields) as [i|]; [|discriminate].
  destruct (dict_get "value_" fields) as [[raw|]|];
    [| discriminate | discriminate].
  destruct (py_compile re_beyond _); [discriminate|].
  intros [= <-]. discriminate.
Qed.

(** With keys that are all different, the loop over the keys deals with the
    records one after the other. *)
Lemma extract_loop_walk r : forall done w,
  NoDup (dict_keys done ++ dict_keys r) ->
  extract_loop re_beyond (dict_keys r) (done ++ raw_dict r) w
  = walk re_beyond r done w.
Proof.
  induction r as [|[k fields] r IH]; intros done w Hnd.
  - cbn. now rewrite app_nil_r.
  - assert (Hk : ~ In k (dict_keys done)).
    { intros Hin. apply NoDup_app_remove_r in Hnd as Hd.
      rewrite <- (app_nil_l (dict_keys done ++ _)) in Hnd.
      cbn [dict_keys map fst] in Hnd.
      apply (NoDup_remove_2 (dict_keys done) (dict_keys r) k) in Hnd.
      apply Hnd. apply in_or_app. now left. }
    assert (Hnd' : NoDup (dict_keys (done ++ [(k, RawRecord fields)])
                          ++ dict_keys r)).
    { rewrite dict_keys_app, <- app_assoc. exact Hnd. }
    assert (Hnd'' : forall d, NoDup (dict_keys (done ++ [(k, DomainObj d)])
                                     ++ dict_keys r)).
    { intros d. rewrite dict_keys_app, <- app_assoc. exact Hnd. }
    cbn [dict_keys map fst raw_dict snd extract_loop walk].
    fold (dict_keys r). fold (raw_dict r).
    rewrite dict_get_app_skip, dict_get_here by assumption.
    rewrite try_convert_record by assumption.
    destruct (convert_record re_beyond fields) as [d| |h] eqn:E.
    + change (done ++ (k, DomainObj d) :: raw_dict r)
        with (done ++ [(k, DomainObj d)] ++ raw_dict r).
      rewrite app_assoc. now apply IH.
    + unfold bind, print.
      change (done ++ (k, RawRecord fields) :: raw_dict r)
        with (done ++ [(k, RawRecord fields)] ++ raw_dict r).
      rewrite app_assoc. now apply IH.
    + pose proof (convert_record_failed _ _ E) as Hh.
      destruct h as [[]|]; try reflexivity. now contradiction Hh.
Qed.

Lemma extract_domains_walk r w :
  NoDup (dict_keys r) ->
  extract_domains re_beyond (raw_dict r) w = walk re_beyond r [] w.
Proof.
  intros Hnd. unfold extract_domains. rewrite raw_dict_keys.
  now apply (extract_loop_walk r []).
Qed.

(** The bindings already dealt with only ride along. *)
Lemma walk_done r : forall done w,
  walk re_beyond r done w
  = match walk re_beyond r [] w with
    | Returns d w' => Returns (done ++ d) w'
    | Stops h w' => Stops h w'
    end.
Proof.
  induction r as [|[k fields] r IH]; intros done w.
  - cbn. now rewrite app_nil_r.
  - cbn [walk]. destruct (convert_record re_beyond fields) as [d| |h].
    + rewrite (IH (done ++ _)), (IH ([] ++ _)).
      destruct (walk re_beyond r [] w); [|reflexivity].
      now rewrite <- app_assoc.
    + unfold bind, print.
      rewrite (IH (done ++ _)), (IH ([] ++ _)).
      destruct (walk re_beyond r [] _); [|reflexivity].
      now rewrite <- app_assoc.
    + reflexivity.
Qed.

Lemma walk_app r1 r2 : forall done w,
  walk re_beyond (r1 ++ r2) done w
  = match walk re_beyond r1 done w with
    | Returns d w' => walk re_beyond r2 d w'
    | Stops h w' => Stops h w'
    end.
Proof.
  induction r1 as [|[k fields] r1 IH]; intros done w; [reflexivity|].
  cbn [app walk]. destruct (convert_record re_beyond fields) as [d| |h].
  - apply IH.
  - unfold bind, print. apply IH.
  - reflexivity.
Qed.

Lemma has_fields_skipped fields :
  has_fields fields = false <-> convert_record re_beyond fields = Skipped.
Proof.
  unfold has_fields, convert_record.
  destruct (dict_get "class_" fields) as [c|]; [|easy].
  destruct (dict_get "id_" fields) as [i|]; [|easy].
  destruct (dict_get "value_" fields) as [[raw|]|]; [| easy | easy].
  destruct (py_compile re_beyond _); easy.
Qed.


(** How a dictionary with the record [fields] under [k] in its middle is
    walked. *)
Lemma walk_middle pre k fields post w :
  walk re_beyond (pre ++ (k, fields) :: post) [] w
  = match walk re_beyond pre [] w with
    | Returns pre' w1 =>
        match convert_record re_beyond fields with
        | Converted d =>
            match walk re_beyond post [] w1 with
            | Returns post' w2 => Returns (pre' ++ (k, DomainObj d) :: post') w2
            | Stops h w2 => Stops h w2
            end
        | Skipped =>
            match walk re_beyond post [] (emit (Print format_error) w1) with
            | Returns post' w2 =>
                Returns (pre' ++ (k, RawRecord fields) :: post') w2
            | Stops h w2 => Stops h w2
            end
        | Failed h => Stops h w1
        end
    | Stops h w1 => Stops h w1
    end.
Proof.
  rewrite walk_app.
  destruct (walk re_beyond pre [] w) as [pre' w1|]; [|reflexivity].
  cbn [walk].
  destruct (convert_record re_beyond fields) as [d| |h]; [| |reflexivity].
  - rewrite walk_done. destruct (walk re_beyond post [] w1); [|reflexivity].
    now rewrite <- app_assoc.
  - unfold bind, print. rewrite walk_done.
    destruct (walk re_beyond post [] _); [|reflexivity].
    now rewrite <- app_assoc.
Qed.


Lemma walk_settles r : forall w,
  (forall k fields h,
     In (k, fields) r -> convert_record re_beyond fields <> Failed h) ->
  exists w',
    walk re_beyond r [] w
    = Returns (map (fun kf => (fst kf, settled re_beyond (snd kf))) r) w' /\
    log w' = log w ++ repeat (Print format_error) (skipped_count r).
Proof.
  induction r as [|[k fields] r IH]; intros w Hok.
  - exists w. split; [reflexivity|]. cbn. now rewrite app_nil_r.
  - cbn [walk map fst snd]. unfold settled at 1.
    unfold skipped_count. cbn [filter snd]. fold (skipped_count r).
    assert (Hr : forall k fields h,
               In (k, fields) r -> convert_record re_beyond fields <> Failed h)
      by (intros k0 f0 h0 Hin; apply (Hok k0 f0 h0); now right).
    destruct (convert_record re_beyond fields) as [d| |h] eqn:E.
    + assert (Hf : has_fields fields = true).
      { destruct (has_fields fields) eqn:F; [reflexivity|].
        apply has_fields_skipped in F. congruence. }
      rewrite Hf. cbn [negb].
      rewrite walk_done. destruct (IH w Hr) as (w' & -> & L). now exists w'.
    + apply has_fields_skipped in E. rewrite E. cbn [negb List.length repeat].
      unfold bind, print. rewrite walk_done.
      destruct (IH (emit (Print format_error) w) Hr) as (w' & -> & L).
      exists w'. split; [reflexivity|].
      rewrite L. cbn [emit log]. now rewrite <- app_assoc.
    + exfalso. apply (Hok k fields h); [now left | exact E].
Qed.

Lemma values_compile_never_fail r :
  values_compile re_beyond r ->
  forall k fields h,
    In (k, fields) r -> convert_record re_beyond fields <> Failed h.
Proof.
  intros Hok k fields h Hin E.
  specialize (Hok k fields). unfold has_fields in Hok.
  unfold convert_record in E.
  destruct (dict_get "class_" fields) as [c|]; [|discriminate].
  destruct (dict_get "id_" fields) as [i|]; [|discriminate].
  destruct (dict_get "value_" fields) as [[raw|]|];
    [| discriminate | discriminate].
  destruct (Hok raw Hin eq_refl eq_refl) as (p & Hp).
  rewrite Hp in E. discriminate.
Qed.





Lemma settled_keys r :
  dict_keys (map (fun kf => (fst kf, settled re_beyond (snd kf))) r)
  = dict_keys r.
Proof. unfold dict_keys. rewrite map_map. reflexivity. Qed.




End Policies.





(** ** What the compiled value matches *)

Section ValuePattern.

Variable re_beyond : string -> option (string -> bool).

Lemma convert_record_three c i raw :
  convert_record re_beyond [("class_", c); ("id_", i); ("value_", Some raw)]
  = match py_compile re_beyond (".*" ++ raw ++ ".*")%string with
    | Some compiled => Converted (mkDomain c i (Some compiled))
    | None => Failed (Raised ReError)
    end.
Proof. reflexivity. Qed.

(** C4, for values without special characters: such a value is compiled
    into a pattern that matches a text node exactly when the value occurs
    somewhere in the node's text, letter case included. *)
Theorem value_pattern_contains_plain key c i raw w :
  Re.plain raw = true ->
  exists p,
    extract_domains re_beyond
      (raw_dict [(key, [("class_", c); ("id_", i); ("value_", Some raw)])]) w
    = Returns [(key, DomainObj (mkDomain c i (Some (VPattern p))))] w /\
    forall text,
      Bs4.matches_text p (Bs4.NavigableString text) = true <->
      Str.occurs_in raw text.
Proof.
  intros Hraw.
  exists ((Re.Dot, Re.Star) :: Re.literal raw ++ [(Re.Dot, Re.Star)]).
  split.
  - rewrite extract_domains_walk
      by (repeat constructor; cbn; intuition discriminate).
    cbn [walk]. rewrite convert_record_three. unfold py_compile.
    now rewrite (ReFacts.compile_wrapped raw Hraw).
  - intros text. cbn [Bs4.matches_text].
    apply ReFacts.search_wrapped_literal.
Qed.

End ValuePattern.

Lemma value_pattern_contains_plain_witness :
  exists p,
    extract_domains Fixture.beyond
      (raw_dict [("shop.example.com",
                  [("class_", None); ("id_", None); ("value_", Some "5")])])
      (Fixture.still "")
    = Returns [("shop.example.com",
                DomainObj (mkDomain None None (Some (VPattern p))))]
              (Fixture.still "") /\
    forall text,
      Bs4.matches_text p (Bs4.NavigableString text) = true <->
      Str.occurs_in "5" text.
Proof.
  apply (value_pattern_contains_plain Fixture.beyond
           "shop.example.com" None None "5" (Fixture.still "")).
  reflexivity.
Defined.

(** The example of the specification: the value "5" finds "Qty: 15 left". *)
Lemma value_5_matches_qty_15 :
  exists p,
    Re.compile ".*5.*" = Re.Compiled p /\
    Bs4.matches_text p (Bs4.NavigableString "Qty: 15 left") = true.
Proof. eexists. split; reflexivity. Qed.

(** C4, against "for every raw value": the value is read as a regular
    expression, so in "1.5" the dot stands for any character; the pattern
    matches "Only 125 left", in which "1.5" does not occur. *)
Lemma value_pattern_reads_dot_as_any :
  exists p,
    extract_domains Fixture.beyond
      (raw_dict [("shop.example.com",
                  [("class_", None); ("id_", None); ("value_", Some "1.5")])])
      (Fixture.still "")
    = Returns [("shop.example.com",
                DomainObj (mkDomain None None (Some (VPattern p))))]
              (Fixture.still "") /\
    Bs4.matches_text p (Bs4.NavigableString "Only 125 left") = true /\
    ~ Str.occurs_in "1.5" "Only 125 left".
Proof.
  eexists. split; [reflexivity|]. split; [reflexivity|].
  intros H. apply StrFacts.contains_iff in H. discriminate H.
Qed.

(** ** The match evaluator *)

Lemma find_some_iff {A} (accepts : A -> bool) l e :
  List.find accepts l = Some e <-> first_of accepts l e.
Proof.
  unfold first_of. induction l as [|x l IH]; cbn.
  - split; [discriminate | intros ([|? ?] & after & H & _); discriminate].
  - destruct (accepts x) eqn:Ex.
    + split.
      * intros [= <-]. exists [], l. repeat split; [assumption | contradiction].
      * intros ([|y before] & after & H & He & Hb).
        -- now injection H as <- _.
        -- injection H as <- _. rewrite (Hb x) in Ex; [discriminate | now left].
    + rewrite IH. split.
      * intros (before & after & -> & He & Hb).
        exists (x :: before), after. repeat split; [assumption|].
        intros y [<- | Hy]; [assumption | now apply Hb].
      * intros ([|y before] & after & H & He & Hb).
        -- injection H as <- _. congruence.
        -- injection H as <- ->. exists before, after.
           repeat split; [assumption|]. intros z Hz. apply Hb. now right.
Qed.

Lemma find_none_iff {A} (accepts : A -> bool) l :
  List.find accepts l = None <-> forall x, In x l -> accepts x = false.
Proof.
  split; [apply find_none|].
  induction l as [|x l IH]; intros H; [reflexivity|].
  cbn. rewrite (H x) by now left. apply IH. intros y Hy. apply H. now right.
Qed.

Lemma find_text_some_iff p e :
  (exists t, Bs4.find_text p e = Some t) <->
  exists text,
    In (Bs4.NavigableString text) (Bs4.descendants e) /\
    Re.search p text = true.
Proof.
  unfold Bs4.find_text, Bs4.find_by. split.
  - intros (t & H). apply find_some in H as [Hin Hm].
    destruct t as [text|]; [|discriminate]. now exists text.
  - intros (text & Hin & Hs).
    destruct (List.find _ _) as [t|] eqn:E; [now exists t|].
    rewrite find_none_iff in E. specialize (E _ Hin). cbn in E. congruence.
Qed.

Lemma append_nil_r (s : string) : (s ++ "")%string = s.
Proof. induction s as [|c s IH]; cbn; [reflexivity | now rewrite IH]. Qed.

Section Evaluation.

Variable py_hash : string -> Z.
Variable lxml : string -> Bs4.node.
Variable netloc : string -> option string.
Variable re_beyond : string -> option (string -> bool).

(** C5, for the links of which [urlparse] gives a host: once the page has
    stabilized, such a link whose host is not in the dictionary, or is bound
    to a [Domain] with no class, no id and no value to look for, gets the
    verdict [False]; one line naming the host is printed and nothing is
    raised, whatever the markup. *)
Theorem check_stock_without_policy fuel domains link host w markup w1 :
  get_loaded_page py_hash fuel link 2 w = Returns markup w1 ->
  netloc link = Some host ->
  (dict_get host domains = None \/
   exists d,
     dict_get host domains = Some (DomainObj d) /\
     Str.truthy (class_ d) = false /\
     Str.truthy (id_ d) = false /\
     value_truthy (value_ d) = false) ->
  exists diagnostic,
    check_stock py_hash lxml netloc re_beyond fuel domains link w
    = Returns false (emit (Print diagnostic) w1) /\
    Str.occurs_in host diagnostic.
Proof.
  intros Hpage Hhost Hpolicy.
  unfold check_stock. unfold bind at 1. rewrite Hpage, Hhost.
  destruct Hpolicy as [Hnone | (d & Hd & Hc & Hi & Hv)].
  - rewrite Hnone. exists (not_provided host). split; [reflexivity|].
    now exists "Search information for domain: "%string,
               " not provided."%string.
  - rewrite Hd. cbn [entry_truthy]. rewrite Hc, Hi, Hv. cbn [orb negb].
    exists (no_criteria host). split; [reflexivity|].
    exists "You must provide at least one class, id, or string value to search for on "%string,
           ""%string.
    unfold no_criteria. now rewrite append_nil_r.
Qed.

(** C3, as the code tests the two selectors: with a class and an id both
    configured as strings that are not empty, a page on which no element
    bears the class gets the verdict [False], whether or not some element
    has the id: only the class is searched for. *)
Theorem check_stock_class_before_id fuel domains link host w markup w1 d c i :
  get_loaded_page py_hash fuel link 2 w = Returns markup w1 ->
  netloc link = Some host ->
  dict_get host domains = Some (DomainObj d) ->
  class_ d = Some c -> Str.truthy (Some c) = true ->
  id_ d = Some i -> Str.truthy (Some i) = true ->
  (forall n, In n (Bs4.descendants (lxml markup)) ->
             Bs4.matches_class c n = false) ->
  check_stock py_hash lxml netloc re_beyond fuel domains link w
  = Returns false w1.
Proof.
  intros Hpage Hhost Hd Hc Hct Hi Hit Hnone.
  unfold check_stock. unfold bind at 1. rewrite Hpage, Hhost, Hd.
  cbn [entry_truthy]. rewrite Hc, Hct. cbn [orb negb].
  destruct c as [|a c']; [discriminate|].
  assert (E : Bs4.find_class (String a c') (lxml markup) = None)
    by now apply find_none_iff.
  rewrite E. reflexivity.
Qed.

(** C1, as [find] works: with the class "price" and the value "SOLD", the
    verdict is [True] exactly when the first element bearing the class
    "price", in document order, has a string below it in which "SOLD"
    occurs.  If no element bears the class the verdict is [False], and
    nothing is raised, wherever else "SOLD" may stand. *)
Theorem check_stock_price_sold fuel domains link host w markup w1 i p :
  get_loaded_page py_hash fuel link 2 w = Returns markup w1 ->
  Re.compile ".*SOLD.*" = Re.Compiled p ->
  netloc link = Some host ->
  dict_get host domains
  = Some (DomainObj (mkDomain (Some "price") i (Some (VPattern p)))) ->
  exists verdict,
    check_stock py_hash lxml netloc re_beyond fuel domains link w
    = Returns verdict w1 /\
    (verdict = true <->
     exists e text,
       first_of (Bs4.matches_class "price")
                (Bs4.descendants (lxml markup)) e /\
       In (Bs4.NavigableString text) (Bs4.descendants e) /\
       Str.occurs_in "SOLD" text) /\
    ((forall n, In n (Bs4.descendants (lxml markup)) ->
                Bs4.matches_class "price" n = false) ->
     verdict = false).
Proof.
  intros Hpage Hp Hhost Hd.
  pose proof (ReFacts.compile_wrapped "SOLD" eq_refl) as Hc.
  change (".*" ++ "SOLD" ++ ".*")%string with ".*SOLD.*"%string in Hc.
  rewrite Hc in Hp. clear Hc. injection Hp as Hp.
  assert (Hsold : forall text,
             Re.search p text = true <-> Str.occurs_in "SOLD" text)
    by (intros text; subst p;
        exact (ReFacts.search_wrapped_literal "SOLD" text)).
  clear Hp.
  unfold check_stock. unfold bind at 1. rewrite Hpage, Hhost, Hd.
  cbn [entry_truthy class_ id_ value_ Str.truthy value_truthy orb negb].
  destruct (Bs4.find_class "price" (lxml markup)) as [e|] eqn:E.
  - cbn [recompile]. unfold bind, ret. cbn [find_pattern].
    destruct (Bs4.find_text p e) as [t|] eqn:T.
    + exists true. split; [reflexivity|]. split.
      * split; [intros _ | reflexivity].
        destruct (proj1 (find_text_some_iff p e) (ex_intro _ t T))
          as (text & Hin & Hs).
        exists e, text. split; [now apply find_some_iff|].
        split; [assumption|]. now apply Hsold.
      * intros Hnone. apply find_some in E as [Hin Hm].
        rewrite (Hnone e Hin) in Hm. discriminate.
    + exists false. split; [reflexivity|]. split; [|reflexivity].
      split; [discriminate|]. intros (e' & text & He' & Hin & Hs).
      apply find_some_iff in He'. unfold Bs4.find_class, Bs4.find_by in E.
      rewrite E in He'. injection He' as <-.
      destruct (proj2 (find_text_some_iff p e)) as (t & Ht).
      { exists text. split; [assumption|]. now apply Hsold. }
      rewrite Ht in T. discriminate.
  - exists false. split; [reflexivity|]. split; [|reflexivity].
    split; [discriminate|]. intros (e & text & He & _).
    apply find_some_iff in He. unfold Bs4.find_class, Bs4.find_by in E.
    rewrite E in He. discriminate.
Qed.

End Evaluation.

Lemma check_stock_without_policy_witness :
  exists diagnostic,
    check_stock Fixture.poly_hash Fixture.lxml Fixture.netloc Fixture.beyond 1
      [("other.example.com", DomainObj (mkDomain (Some "stock") None None))]
      "https://shop.example.com/item?id=1"
      (Fixture.still Fixture.two_prices)
    = Returns false
        (emit (Print diagnostic)
           (world_of
              (get_loaded_page Fixture.poly_hash 1
                 "https://shop.example.com/item?id=1" 2
                 (Fixture.still Fixture.two_prices)))) /\
    Str.occurs_in "shop.example.com" diagnostic.
Proof.
  apply (check_stock_without_policy Fixture.poly_hash Fixture.lxml
           Fixture.netloc Fixture.beyond 1
           [("other.example.com",
             DomainObj (mkDomain (Some "stock") None None))]
           "https://shop.example.com/item?id=1" "shop.example.com"
           (Fixture.still Fixture.two_prices)
           (html Fixture.two_prices)).
  - vm_compute. reflexivity.
  - vm_compute. reflexivity.
  - left. vm_compute. reflexivity.
Defined.

(** C5, against "for every URL": of a link with an opening bracket in its
    host and no closing one, [urlparse] raises [ValueError] (Invalid IPv6
    URL); the call is not guarded, so [check_stock] raises, once the page
    has been loaded, instead of returning [False]. *)
Lemma check_stock_raises_on_bad_link :
  Fixture.netloc Fixture.bad_link = None /\
  check_stock Fixture.poly_hash Fixture.lxml Fixture.netloc Fixture.beyond 1
    [] Fixture.bad_link (Fixture.still Fixture.two_prices)
  = Stops (Raised ValueError)
      (world_of
         (get_loaded_page Fixture.poly_hash 1 Fixture.bad_link 2
            (Fixture.still Fixture.two_prices))).
Proof. split; vm_compute; reflexivity. Qed.

Lemma check_stock_class_before_id_witness :
  check_stock Fixture.poly_hash Fixture.lxml Fixture.netloc Fixture.beyond 1
    [("shop.example.com",
      DomainObj (mkDomain (Some "stock") (Some "stock") None))]
    "https://shop.example.com/item"
    (Fixture.still Fixture.stock_by_id)
  = Returns false
      (world_of
         (get_loaded_page Fixture.poly_hash 1
            "https://shop.example.com/item" 2
            (Fixture.still Fixture.stock_by_id))) /\
  Bs4.find_id "stock" (Fixture.lxml (html Fixture.stock_by_id)) <> None.
Proof.
  split; [|vm_compute; discriminate].
  apply (check_stock_class_before_id Fixture.poly_hash Fixture.lxml
           Fixture.netloc Fixture.beyond 1
           [("shop.example.com",
             DomainObj (mkDomain (Some "stock") (Some "stock") None))]
           "https://shop.example.com/item" "shop.example.com"
           (Fixture.still Fixture.stock_by_id)
           (html Fixture.stock_by_id)
           (world_of
              (get_loaded_page Fixture.poly_hash 1
                 "https://shop.example.com/item" 2
                 (Fixture.still Fixture.stock_by_id)))
           (mkDomain (Some "stock") (Some "stock") None)
           "stock" "stock").
  - vm_compute. reflexivity.
  - vm_compute. reflexivity.
  - vm_compute. reflexivity.
  - reflexivity.
  - reflexivity.
  - reflexivity.
  - reflexivity.
  - intros n Hn. vm_compute in Hn.
    repeat (destruct Hn as [<- | Hn]; [reflexivity|]). contradiction.
Defined.

(** C3, against "both set": a class set to the empty string counts as not
    set.  With the class [""] and the id "stock", on a page where no element
    bears the class [""] and one element has the id "stock", [check_stock]
    searches by the id and returns [True]. *)
Lemma check_stock_empty_class_consults_id :
  let d := mkDomain (Some "") (Some "stock") None in
  let w := Fixture.still Fixture.stock_by_id in
  let soup := Fixture.lxml (html Fixture.stock_by_id) in
  check_stock Fixture.poly_hash Fixture.lxml Fixture.netloc Fixture.beyond 1
    [("shop.example.com", DomainObj d)] "https://shop.example.com/item" w
  = Returns true
      (world_of
         (get_loaded_page Fixture.poly_hash 1
            "https://shop.example.com/item" 2 w)) /\
  (forall n, In n (Bs4.descendants soup) ->
             Bs4.matches_class "" n = false) /\
  Bs4.find_id "stock" soup <> None.
Proof.
  cbv zeta. split; [vm_compute; reflexivity|]. split.
  - intros n Hn. vm_compute in Hn.
    repeat (destruct Hn as [<- | Hn]; [reflexivity|]). contradiction.
  - vm_compute. discriminate.
Qed.

Lemma check_stock_price_sold_witness :
  exists verdict,
    check_stock Fixture.poly_hash Fixture.lxml Fixture.netloc Fixture.beyond 1
      [("shop.example.com",
        DomainObj
          (mkDomain (Some "price") None
             (Some (VPattern
                ((Re.Dot, Re.Star) :: Re.literal "SOLD"
                 ++ [(Re.Dot, Re.Star)])))))]
      "https://shop.example.com/item"
      (Fixture.still Fixture.stock_by_id)
    = Returns verdict
        (world_of
           (get_loaded_page Fixture.poly_hash 1
              "https://shop.example.com/item" 2
              (Fixture.still Fixture.stock_by_id))) /\
    verdict = false.
Proof.
  destruct (check_stock_price_sold Fixture.poly_hash Fixture.lxml
              Fixture.netloc Fixture.beyond 1
              [("shop.example.com",
                DomainObj
                  (mkDomain (Some "price") None
                     (Some (VPattern
                        ((Re.Dot, Re.Star) :: Re.literal "SOLD"
                         ++ [(Re.Dot, Re.Star)])))))]
              "https://shop.example.com/item" "shop.example.com"
              (Fixture.still Fixture.stock_by_id)
              (html Fixture.stock_by_id)
              (world_of
                 (get_loaded_page Fixture.poly_hash 1
                    "https://shop.example.com/item" 2
                    (Fixture.still Fixture.stock_by_id)))
              None
              ((Re.Dot, Re.Star) :: Re.literal "SOLD" ++ [(Re.Dot, Re.Star)]))
    as (verdict & E & _ & Hnone).
  - vm_compute. reflexivity.
  - vm_compute. reflexivity.
  - vm_compute. reflexivity.
  - vm_compute. reflexivity.
  - exists verdict. split; [exact E|].
    apply Hnone. intros n Hn. vm_compute in Hn.
    repeat (destruct Hn as [<- | Hn]; [reflexivity|]). contradiction.
Defined.

(** C1, against "contains an element": on a listing with two elements of
    class "price", the first showing "10" and the second "SOLD", the policy
    built from class "price" and value "SOLD" gives [False], although an
    element with class "price" holding "SOLD" is on the page: only the first
    element bearing the class is searched. *)
Lemma check_stock_looks_at_first_price_only :
  let raw := [("shop.example.com",
               [("class_", Some "price"); ("id_", None);
                ("value_", Some "SOLD")])] in
  let w := Fixture.still Fixture.two_prices in
  exists domains w',
    extract_domains Fixture.beyond (raw_dict raw) w = Returns domains w /\
    check_stock Fixture.poly_hash Fixture.lxml Fixture.netloc Fixture.beyond
      1 domains "https://shop.example.com/item" w
    = Returns false w' /\
    exists e text,
      In e (Bs4.descendants (Fixture.lxml (html Fixture.two_prices))) /\
      Bs4.matches_class "price" e = true /\
      In (Bs4.NavigableString text) (Bs4.descendants e) /\
      Str.occurs_in "SOLD" text.
Proof.
  cbv zeta. eexists. eexists.
  split; [vm_compute; reflexivity|]. split; [vm_compute; reflexivity|].
  exists (Bs4.Tag "div" (Some ["price"]) None [Bs4.NavigableString "SOLD"]),
         "SOLD"%string.
  split; [vm_compute; tauto|]. split; [reflexivity|].
  split; [now left|]. now exists ""%string, ""%string.
Qed.

(** C7, on the code: a record with a wrong field name is left in the
    dictionary by [extract_domains], which prints its diagnostic; when a link
    of that host is checked, [domain.class_] is asked of the raw [dict] and
    [check_stock] raises [AttributeError] instead of returning [False]. *)
Theorem check_stock_raises_on_unconverted_record :
  let raw := [("shop.example.com",
               [("class", Some "stock"); ("id_", None); ("value_", None)])] in
  let w := Fixture.still Fixture.two_prices in
  extract_domains Fixture.beyond (raw_dict raw) w
  = Returns (raw_dict raw) (emit (Print format_error) w) /\
  exists w',
    check_stock Fixture.poly_hash Fixture.lxml Fixture.netloc Fixture.beyond 1
      (raw_dict raw) "https://shop.example.com/item"
      (emit (Print format_error) w)
    = Stops (Raised AttributeError) w'.
Proof.
  cbv zeta. split; [vm_compute; reflexivity|].
  vm_compute. eexists. reflexivity.
Qed.

(** ** The sweep loop *)

Lemma session_events_app l1 l2 :
  session_events (l1 ++ l2) = session_events l1 ++ session_events l2.
Proof. apply filter_app. Qed.

Lemma session_untouched_refl w : session_untouched w w.
Proof. now repeat split. Qed.

Lemma session_untouched_trans w1 w2 w3 :
  session_untouched w1 w2 -> session_untouched w2 w3 ->
  session_untouched w1 w3.
Proof.
  intros (E1 & J1 & B1) (E2 & J2 & B2).
  repeat split; congruence.
Qed.

Lemma session_untouched_emit e w :
  on_session e = false -> session_untouched w (emit e w).
Proof.
  intros He. repeat split. cbn [emit log].
  rewrite session_events_app. cbn. rewrite He. apply app_nil_r.
Qed.

Lemma session_untouched_round t w : session_untouched w (after_round t w).
Proof.
  repeat split. cbn [after_round log].
  rewrite session_events_app. cbn. apply app_nil_r.
Qed.

Lemma session_untouched_rounds t k : forall w,
  session_untouched w (after_rounds t k w).
Proof.
  induction k as [|k IH]; intros w; cbn [after_rounds].
  - apply session_untouched_refl.
  - eapply session_untouched_trans; [apply session_untouched_round | apply IH].
Qed.

Lemma session_untouched_source w :
  session_untouched w (world_of (page_source w)).
Proof.
  repeat split. cbn. rewrite session_events_app. cbn. apply app_nil_r.
Qed.

Section Sweeps.

Variable py_hash : string -> Z.
Variable lxml : string -> Bs4.node.
Variable netloc : string -> option string.
Variable re_beyond : string -> option (string -> bool).

Lemma get_loaded_page_session fuel link t w :
  session_untouched (navigated link w)
    (world_of (get_loaded_page py_hash fuel link t w)).
Proof.
  destruct (first_stable py_hash w fuel) as [Hall | (k & Hk & Hs & Hb)].
  - rewrite get_loaded_page_runs by assumption. cbn [world_of].
    apply session_untouched_rounds.
  - rewrite (get_loaded_page_leaves py_hash fuel link t w k) by assumption.
    eapply session_untouched_trans;
      [apply session_untouched_rounds | apply session_untouched_source].
Qed.

Lemma check_stock_session fuel domains link w :
  session_untouched (navigated link w)
    (world_of (check_stock py_hash lxml netloc re_beyond fuel domains link w)).
Proof.
  pose proof (get_loaded_page_session fuel link 2 w) as Hpage.
  unfold check_stock. unfold bind at 1.
  destruct (get_loaded_page py_hash fuel link 2 w) as [markup w1 | h w1];
    cbn [world_of] in Hpage; [|exact Hpage].
  assert (Hprint : forall line,
             session_untouched (navigated link w) (emit (Print line) w1)).
  { intros line. eapply session_untouched_trans; [exact Hpage|].
    now apply session_untouched_emit. }
  destruct (netloc link) as [host|]; [|exact Hpage].
  destruct (dict_get host domains) as [[fields | d]|];
    [| | apply Hprint].
  - destruct fields; cbn [entry_truthy]; [apply Hprint | exact Hpage].
  - cbn [entry_truthy].
    destruct (negb _); [apply Hprint|].
    unfold bind.
    match goal with
    | |- context [match ?soup with Some _ => _ | None => _ end] =>
        destruct soup as [s|]
    end.
    + destruct (value_ d) as [v|]; [|exact Hpage].
      destruct (value_truthy (Some v)); [|exact Hpage].
      destruct v as [raw | p | source found_in]; cbn [recompile];
        [| exact Hpage | exact Hpage].
      destruct (py_compile re_beyond raw); exact Hpage.
    + exact Hpage.
Qed.

Lemma send_to_session n to subject body : forall w,
  exists w',
    send_to n to subject body w = Returns tt w' /\ session_untouched w w'.
Proof.
  induction to as [|r to IH]; intros w.
  - exists w. split; [reflexivity | apply session_untouched_refl].
  - cbn [send_to]. unfold bind.
    destruct (IH (emit (SendMail (sender_address n) r
                          ("From: " ++ sender_address n ++ Str.crlf
                           ++ "To: " ++ r ++ Str.crlf
                           ++ "Subject: " ++ subject ++ Str.crlf
                           ++ Str.crlf ++ body)%string) w))
      as (w' & E & Hs).
    exists w'. split; [exact E|].
    eapply session_untouched_trans; [|exact Hs].
    now apply session_untouched_emit.
Qed.

(** What the report on one link does: mails and prints only. *)
Lemma report_session notifier (found : bool) link w :
  exists w',
    (if found
     then send_notification notifier "Stock Alert" link ;;;
          print (in_stock link)
     else print (out_of_stock link)) w = Returns tt w' /\
    session_untouched w w'.
Proof.
  destruct found.
  - unfold bind, send_notification.
    destruct (send_to_session notifier (recipients notifier)
                "Stock Alert" link w) as (w1 & -> & Hs).
    eexists. split; [reflexivity|].
    eapply session_untouched_trans; [exact Hs|].
    now apply session_untouched_emit.
  - eexists. split; [reflexivity|]. now apply session_untouched_emit.
Qed.

Lemma navigated_session link w :
  session_events (log (navigated link w))
  = session_events (log w) ++ [Navigate link] /\
  jar (navigated link w) = jar w ++ bakes w link /\
  bakes (navigated link w) = bakes w.
Proof.
  repeat split. cbn [navigated log]. now rewrite session_events_app.
Qed.

(** One sweep: the links are visited in order, the jar only grows. *)
Lemma sweep_session fuel domains notifier links : forall w,
  match sweep py_hash lxml netloc re_beyond fuel domains notifier links w with
  | Returns _ w' =>
      session_events (log w') = session_events (log w) ++ map Navigate links /\
      jar w' = jar w ++ flat_map (bakes w) links /\
      bakes w' = bakes w
  | Stops _ w' =>
      exists j,
        1 <= j <= List.length links /\
        session_events (log w')
        = session_events (log w) ++ map Navigate (firstn j links) /\
        jar w' = jar w ++ flat_map (bakes w) (firstn j links) /\
        bakes w' = bakes w
  end.
Proof.
  induction links as [|link rest IH]; intros w.
  - cbn. now rewrite !app_nil_r.
  - cbn [sweep]. unfold bind at 1.
    pose proof (check_stock_session fuel domains link w) as (E1 & J1 & B1).
    destruct (navigated_session link w) as (En & Jn & Bn).
    rewrite En in E1. rewrite Jn in J1. rewrite Bn in B1.
    destruct (check_stock py_hash lxml netloc re_beyond fuel domains link w)
      as [found w1 | h w1]; cbn [world_of] in E1, J1, B1.
    + unfold bind at 1.
      destruct (report_session notifier found link w1)
        as (w2 & -> & (E2 & J2 & B2)).
      specialize (IH w2).
      destruct (sweep py_hash lxml netloc re_beyond fuel domains notifier rest
                  w2) as [u w' | h w'].
      * destruct IH as (E & J & B). cbn [map flat_map].
        rewrite E, J, B, E2, J2, B2, E1, J1, B1, <- !app_assoc.
        repeat split.
      * destruct IH as (j & Hj & E & J & B). exists (S j).
        cbn [List.length firstn map flat_map].
        rewrite E, J, B, E2, J2, B2, E1, J1, B1, <- !app_assoc.
        repeat split; lia.
    + exists 1. cbn [List.length firstn map flat_map].
      rewrite E1, J1, B1, app_nil_r. repeat split; lia.
Qed.

(** C9: over the first [n] rounds of the main loop the session sees, sweep
    after sweep, one navigation per link in order and then one deletion of
    the cookies, and nothing else; after a full round the jar is empty.  If
    the run stops on the way (a check raises, or a page never stabilizes) it
    stops inside a sweep, after the navigation to one of its links: the full
    sweeps before it each ended with their one deletion, and the jar holds
    the cookies of every link visited since the last deletion. *)
Theorem cookies_deleted_between_sweeps n fuel domains notifier links : forall w,
  match
    sweeps py_hash lxml netloc re_beyond n fuel domains notifier links w
  with
  | Returns _ w' =>
      session_events (log w')
      = session_events (log w) ++ List.concat (repeat (sweep_events links) n) /\
      jar w' = match n with
               | O => jar w
               | S _ => []
               end
  | Stops _ w' =>
      exists k j,
        k < n /\ 1 <= j <= List.length links /\
        session_events (log w')
        = session_events (log w)
          ++ List.concat (repeat (sweep_events links) k)
          ++ map Navigate (firstn j links) /\
        jar w' = match k with
                 | O => jar w
                 | S _ => []
                 end ++ flat_map (bakes w) (firstn j links)
  end.
Proof.
  induction n as [|n IH]; intros w.
  - cbn. now rewrite app_nil_r.
  - cbn [sweeps]. unfold bind at 1.
    pose proof (sweep_session fuel domains notifier links w) as Hs.
    destruct (sweep py_hash lxml netloc re_beyond fuel domains notifier links w)
      as [u w1 | h w1].
    + destruct Hs as (E1 & J1 & B1).
      unfold bind at 1, delete_cookies, delete_all_cookies.
      match goal with
      | |- match sweeps _ _ _ _ _ _ _ _ _ ?w2 with _ => _ end =>
          specialize (IH w2); set (w2' := w2) in *
      end.
      assert (E2 : session_events (log w2')
                   = session_events (log w) ++ sweep_events links).
      { subst w2'. cbn [log]. rewrite session_events_app, E1.
        unfold sweep_events. now rewrite <- app_assoc. }
      assert (J2 : jar w2' = []) by reflexivity.
      assert (B2 : bakes w2' = bakes w) by exact B1.
      destruct (sweeps py_hash lxml netloc re_beyond n fuel domains notifier
                  links w2') as [u' w' | h w'].
      * destruct IH as (E & J). cbn [repeat List.concat].
        rewrite E, E2, <- !app_assoc. split; [reflexivity|].
        rewrite J, J2. now destruct n.
      * destruct IH as (k & j & Hk & Hj & E & J). exists (S k), j.
        cbn [repeat List.concat].
        rewrite E, E2, J, J2, B2, <- !app_assoc.
        repeat split; try lia. now destruct k.
    + destruct Hs as (j & Hj & E & J & B). exists 0, j.
      cbn [repeat List.concat app]. repeat split; try lia; assumption.
Qed.

End Sweeps.

Lemma cookies_deleted_between_sweeps_witness :
  let a := "https://shop.example.com/a"%string in
  let b := "https://other.example.com/b"%string in
  let w := Fixture.still Fixture.two_prices in
  exists w',
    sweeps Fixture.poly_hash Fixture.lxml Fixture.netloc Fixture.beyond 2 1
      [("shop.example.com", DomainObj (mkDomain (Some "price") None None))]
      (mkNotifier "me@example.com" ["you@example.com"]) [a; b] w
    = Returns tt w' /\
    session_events (log w')
    = [Navigate a; Navigate b; DeleteCookies;
       Navigate a; Navigate b; DeleteCookies].
Proof.
  cbv zeta.
  pose proof (cookies_deleted_between_sweeps Fixture.poly_hash Fixture.lxml
                Fixture.netloc Fixture.beyond 2 1
                [("shop.example.com",
                  DomainObj (mkDomain (Some "price") None None))]
                (mkNotifier "me@example.com" ["you@example.com"])
                ["https://shop.example.com/a"%string;
                 "https://other.example.com/b"%string]
                (Fixture.still Fixture.two_prices)) as H.
  destruct (sweeps _ _ _ _ _ _ _ _ _ _) as [[] w' | h w'] eqn:E.
  - exists w'. split; [reflexivity | exact (proj1 H)].
  - vm_compute in E. discriminate E.
Defined.

(** * Further properties of the code *)

(** ** The wrapping of the configured value *)

Module WrapFacts.
Import Re.

Lemma quant_of_inv c q :
  quant_of c = Some q -> c = "*"%char \/ c = "+"%char \/ c = "?"%char.
Proof.
  unfold quant_of.
  destruct (Ascii.eqb_spec c "*"); [auto|].
  destruct (Ascii.eqb_spec c "+"); [auto|].
  destruct (Ascii.eqb_spec c "?"); [auto|discriminate].
Qed.

(** Items lying under the ones read so far stay where they are. *)
Lemma parse_over_base n : forall s acc base p,
  String.length s <= n ->
  parse acc s = Compiled p ->
  parse (acc ++ base) s = Compiled (rev base ++ p).
Proof.
  induction n as [|n IH]; intros s acc base p Hn Hp.
  - destruct s; [|cbn in Hn; lia]. cbn in *. injection Hp as <-.
    now rewrite rev_app_distr.
  - destruct s as [|c s].
    + cbn in *. injection Hp as <-. now rewrite rev_app_distr.
    + cbn in Hn. cbn [parse] in *.
      destruct (quant_of c) as [q|].
      * destruct acc as [|[a []] acc']; try discriminate Hp.
        cbn [app].
        destruct s as [|c' s'];
          [apply (IH ""%string ((a, q) :: acc') base p);
           [cbn; lia | exact Hp]|].
        cbn in Hn.
        destruct (Ascii.eqb_spec c' "?") as [-> | Hq].
        -- apply (IH s' ((a, q) :: acc') base p); [lia | exact Hp].
        -- destruct (Ascii.eqb_spec c' "+") as [-> | Hplus];
             [discriminate Hp|].
           assert (E : forall (X : Type) (x y z : X),
                     match c' with
                     | "?"%char => x
                     | "+"%char => y
                     | _ => z
                     end = z).
           { intros X x y z.
             destruct c' as [[] [] [] [] [] [] [] []]; try reflexivity;
               congruence. }
           rewrite E in Hp |- *.
           apply (IH (String c' s') ((a, q) :: acc') base p);
             [cbn; lia | exact Hp].
      * destruct (Ascii.eqb c ".").
        -- apply (IH s ((Dot, One) :: acc) base p); [lia | exact Hp].
        -- destruct (beyond c); [discriminate Hp|].
           apply (IH s ((Lit c, One) :: acc) base p); [lia | exact Hp].
Qed.

(** A pattern that compiles still does with [.*] after it. *)
Lemma parse_then_dot_star n : forall s acc p,
  String.length s <= n ->
  parse acc s = Compiled p ->
  parse acc (s ++ ".*") = Compiled (p ++ [(Dot, Star)]).
Proof.
  induction n as [|n IH]; intros s acc p Hn Hp.
  - destruct s; [|cbn in Hn; lia]. cbn in *. now injection Hp as <-.
  - destruct s as [|c s].
    + cbn in *. now injection Hp as <-.
    + cbn in Hn. cbn [parse append] in *.
      destruct (quant_of c) as [q|].
      * destruct acc as [|[a []] acc']; try discriminate Hp.
        destruct s as [|c' s'].
        -- cbn [append]. apply (IH ""%string); [cbn; lia | exact Hp].
        -- cbn in Hn. cbn [append].
           destruct (Ascii.eqb_spec c' "?") as [-> | Hq].
           ++ apply (IH s' ((a, q) :: acc')); [lia | exact Hp].
           ++ destruct (Ascii.eqb_spec c' "+") as [-> | Hplus];
                [discriminate Hp|].
              assert (E : forall (X : Type) (x y z : X),
                        match c' with
                        | "?"%char => x
                        | "+"%char => y
                        | _ => z
                        end = z).
              { intros X x y z.
                destruct c' as [[] [] [] [] [] [] [] []]; try reflexivity;
                  congruence. }
              rewrite E in Hp |- *.
              apply (IH (String c' s') ((a, q) :: acc'));
                [cbn; lia | exact Hp].
      * destruct (Ascii.eqb c ".").
        -- apply (IH s ((Dot, One) :: acc)); [lia | exact Hp].
        -- destruct (beyond c); [discriminate Hp|].
           apply (IH s ((Lit c, One) :: acc)); [lia | exact Hp].
Qed.

(** A pattern that compiles on its own compiles wrapped, into itself
    between two [.*]. *)
Lemma compile_wrapped_any raw p :
  compile raw = Compiled p ->
  compile (".*" ++ raw ++ ".*") = Compiled ((Dot, Star) :: p ++ [(Dot, Star)]).
Proof.
  unfold compile. intros Hp.
  pose proof (parse_then_dot_star _ raw [] p (Nat.le_refl _) Hp) as H1.
  pose proof (parse_over_base _ (raw ++ ".*") [] [(Dot, Star)] _
                (Nat.le_refl _) H1) as H2.
  change (".*" ++ raw ++ ".*")%string
    with (String "." (String "*" (raw ++ ".*")))%string.
  change (parse [] (String "." (String "*" (raw ++ ".*"))))
    with (parse [(Dot, One)] (String "*" (raw ++ ".*"))).
  refine (eq_trans _ H2). cbn [app].
  cbn [parse quant_of]. simpl Ascii.eqb. cbv iota.
  destruct raw as [|c raw]; [reflexivity|].
  cbn [append].
  destruct (Ascii.eqb_spec c "?") as [-> | Hq]; [discriminate Hp|].
  destruct (Ascii.eqb_spec c "+") as [-> | Hplus]; [discriminate Hp|].
  destruct c as [[] [] [] [] [] [] [] []]; try reflexivity; congruence.
Qed.

Lemma repeat_atom_ext a k k' :
  (forall s, k s = k' s) -> forall s, repeat_atom a k s = repeat_atom a k' s.
Proof.
  intros Hk s. induction s as [|c s IH]; cbn [repeat_atom]; rewrite Hk.
  - reflexivity.
  - now rewrite IH.
Qed.

(** A final [.*] matches whatever is left. *)
Lemma match_here_dot_star p : forall s,
  match_here (p ++ [(Dot, Star)]) s = match_here p s.
Proof.
  induction p as [|[a q] p IH]; intros s.
  - cbn. now destruct s.
  - cbn [app match_here]. destruct q.
    + destruct s; [reflexivity|]. now rewrite IH.
    + rewrite IH. destruct s; [reflexivity|]. now rewrite IH.
    + now apply repeat_atom_ext.
    + destruct s; [reflexivity|]. f_equal. now apply repeat_atom_ext.
Qed.

(** Under [search] the two [.*] add nothing. *)
Lemma search_wrapped p text :
  search ((Dot, Star) :: p ++ [(Dot, Star)]) text = search p text.
Proof.
  apply eq_true_iff_eq. rewrite !ReFacts.search_iff. split.
  - intros (skipped & rest & -> & Hm). cbn [match_here] in Hm.
    apply ReFacts.repeat_atom_split in Hm as (eaten & rest' & -> & Hm).
    rewrite match_here_dot_star in Hm.
    exists (skipped ++ eaten)%string, rest'.
    split; [now rewrite StrFacts.append_assoc | exact Hm].
  - intros (skipped & rest & -> & Hm).
    exists skipped, rest. split; [reflexivity|].
    cbn [match_here]. apply ReFacts.repeat_atom_now.
    now rewrite match_here_dot_star.
Qed.

(** A value that begins with [*] does not compile, whatever follows. *)
Lemma compile_wrapped_star rest :
  compile (".*" ++ String "*" rest ++ ".*") = Error.
Proof.
  unfold compile.
  change (".*" ++ String "*" rest ++ ".*")%string
    with (String "." (String "*" (String "*" (rest ++ ".*"))))%string.
  reflexivity.
Qed.

End WrapFacts.

Section Wrapping.

Variable re_beyond : string -> option (string -> bool).

(** X1: a value that is a pattern of its own is compiled, wrapped, into a
    pattern that finds exactly the strings the value itself finds: since
    bs4 matches with [search], the [.*] put around the value add nothing. *)
Theorem value_wrapping_adds_nothing key c i raw p w :
  Re.compile raw = Re.Compiled p ->
  exists wrapped,
    extract_domains re_beyond
      (raw_dict [(key, [("class_", c); ("id_", i); ("value_", Some raw)])]) w
    = Returns [(key, DomainObj (mkDomain c i (Some (VPattern wrapped))))] w /\
    forall n, Bs4.matches_text wrapped n = Bs4.matches_text p n.
Proof.
  intros Hp.
  exists ((Re.Dot, Re.Star) :: p ++ [(Re.Dot, Re.Star)]). split.
  - rewrite extract_domains_walk
      by (repeat constructor; cbn; intuition discriminate).
    cbn [walk]. rewrite convert_record_three. unfold py_compile.
    now rewrite (WrapFacts.compile_wrapped_any raw p Hp).
  - intros [text | name cls id kids]; [|reflexivity].
    cbn [Bs4.matches_text]. apply WrapFacts.search_wrapped.
Qed.

End Wrapping.

Lemma value_wrapping_adds_nothing_witness :
  exists p wrapped,
    Re.compile "In.St?ock" = Re.Compiled p /\
    extract_domains Fixture.beyond
      (raw_dict [("shop.example.com",
                  [("class_", None); ("id_", None);
                   ("value_", Some "In.St?ock")])])
      (Fixture.still "")
    = Returns [("shop.example.com",
                DomainObj (mkDomain None None (Some (VPattern wrapped))))]
              (Fixture.still "") /\
    forall n, Bs4.matches_text wrapped n = Bs4.matches_text p n.
Proof.
  eexists.
  destruct (value_wrapping_adds_nothing Fixture.beyond
              "shop.example.com" None None
              "In.St?ock" _ (Fixture.still "") eq_refl)
    as (wrapped & E & H).
  exists wrapped. split; [reflexivity|]. split; [exact E | exact H].
Defined.

Section StarValue.

Variable re_beyond : string -> option (string -> bool).

(** X2: a record with the three field names whose value begins with [*]
    stops [extract_domains] with [re.error], wherever it stands behind
    records whose values [re.compile] accepts: the records before it have
    been dealt with (their diagnostics are printed), those after it are not
    looked at. *)
Theorem extract_domains_star_value pre k fields c i rest post w :
  NoDup (dict_keys (pre ++ (k, fields) :: post)) ->
  values_compile re_beyond pre ->
  dict_get "class_" fields = Some c ->
  dict_get "id_" fields = Some i ->
  dict_get "value_" fields = Some (Some (String "*" rest)) ->
  exists w',
    extract_domains re_beyond (raw_dict (pre ++ (k, fields) :: post)) w
    = Stops (Raised ReError) w' /\
    log w' = log w ++ repeat (Print format_error) (skipped_count pre).
Proof.
  intros Hnd Hpre Hc Hi Hv.
  rewrite (extract_domains_walk _ _ w Hnd), walk_middle.
  destruct (walk_settles re_beyond pre w
              (values_compile_never_fail re_beyond pre Hpre))
    as (w' & -> & L).
  exists w'. split; [|exact L].
  unfold convert_record, py_compile. rewrite Hc, Hi, Hv.
  now rewrite WrapFacts.compile_wrapped_star.
Qed.

End StarValue.

Lemma extract_domains_star_value_witness :
  exists w',
    extract_domains Fixture.beyond
      (raw_dict [("a.example.com", [("class", Some "stock")]);
                 ("b.example.com",
                  [("class_", None); ("id_", None);
                   ("value_", Some "*** SALE ***")]);
                 ("c.example.com",
                  [("class_", Some "stock"); ("id_", None);
                   ("value_", None)])])
      (Fixture.still "")
    = Stops (Raised ReError) w' /\
    log w' = [Print format_error].
Proof.
  apply (extract_domains_star_value Fixture.beyond
           [("a.example.com", [("class", Some "stock")])]
           "b.example.com"
           [("class_", None); ("id_", None); ("value_", Some "*** SALE ***")]
           None None "** SALE ***"
           [("c.example.com",
             [("class_", Some "stock"); ("id_", None); ("value_", None)])]
           (Fixture.still "")).
  - repeat constructor; cbn; intuition discriminate.
  - intros k fields raw [[= <- <-] | []] Hf _. discriminate Hf.
  - reflexivity.
  - reflexivity.
  - reflexivity.
Defined.

(** ** The branches of the match evaluator *)

Lemma find_by_some_iff accepts root :
  (exists e, Bs4.find_by accepts root = Some e) <->
  exists n, In n (Bs4.descendants root) /\ accepts n = true.
Proof.
  unfold Bs4.find_by. split.
  - intros (e & H). apply find_some in H. now exists e.
  - intros (n & Hin & Hn).
    destruct (List.find accepts (Bs4.descendants root)) as [e|] eqn:E;
      [now exists e|].
    rewrite find_none_iff in E. rewrite (E n Hin) in Hn. discriminate.
Qed.

Lemma option_is_some {A} (o : option A) :
  match o with Some _ => true | None => false end = true <->
  exists a, o = Some a.
Proof.
  destruct o as [a|]; split; try discriminate; eauto.
  intros (a & H). discriminate.
Qed.

Section Branches.

Variable py_hash : string -> Z.
Variable lxml : string -> Bs4.node.
Variable netloc : string -> option string.
Variable re_beyond : string -> option (string -> bool).

(** X3: with no value to look for, the verdict says whether the page has an
    element of the configured class; the id counts only when no class is
    configured ([None] or the empty string), and then the verdict says
    whether the page has an element of that id. *)
Theorem check_stock_selector_only fuel domains link host w markup w1 d :
  get_loaded_page py_hash fuel link 2 w = Returns markup w1 ->
  netloc link = Some host ->
  dict_get host domains = Some (DomainObj d) ->
  value_truthy (value_ d) = false ->
  (forall c, class_ d = Some c -> Str.truthy (Some c) = true ->
     exists verdict,
       check_stock py_hash lxml netloc re_beyond fuel domains link w
       = Returns verdict w1 /\
       (verdict = true <->
        exists n, In n (Bs4.descendants (lxml markup)) /\
                  Bs4.matches_class c n = true)) /\
  (forall i, Str.truthy (class_ d) = false ->
     id_ d = Some i -> Str.truthy (Some i) = true ->
     exists verdict,
       check_stock py_hash lxml netloc re_beyond fuel domains link w
       = Returns verdict w1 /\
       (verdict = true <->
        exists n, In n (Bs4.descendants (lxml markup)) /\
                  Bs4.matches_id i n = true)).
Proof.
  intros Hpage Hhost Hd Hv. split.
  - intros c Hc Hct.
    unfold check_stock. unfold bind at 1. rewrite Hpage, Hhost, Hd.
    cbn [entry_truthy]. rewrite Hc, Hct. cbn [orb negb].
    destruct c as [|a c']; [discriminate|].
    exists (match Bs4.find_class (String a c') (lxml markup) with
            | Some _ => true
            | None => false
            end).
    split.
    + unfold bind, ret.
      destruct (Bs4.find_class (String a c') (lxml markup)) as [e|];
        [|reflexivity].
      destruct (value_ d) as [v|]; [|reflexivity].
      rewrite Hv. reflexivity.
    + rewrite option_is_some. apply find_by_some_iff.
  - intros i Hcf Hi Hit.
    unfold check_stock. unfold bind at 1. rewrite Hpage, Hhost, Hd.
    cbn [entry_truthy]. rewrite Hcf, Hi, Hit. cbn [orb negb].
    destruct i as [|a i']; [discriminate|].
    exists (match Bs4.find_id (String a i') (lxml markup) with
            | Some _ => true
            | None => false
            end).
    split.
    + unfold bind, ret.
      assert (E : match class_ d with
                  | Some (String _ _ as c) => Bs4.find_class c (lxml markup)
                  | _ => Bs4.find_id (String a i') (lxml markup)
                  end = Bs4.find_id (String a i') (lxml markup)).
      { destruct (class_ d) as [[|x c]|]; try reflexivity. discriminate Hcf. }
      rewrite E.
      destruct (Bs4.find_id (String a i') (lxml markup)) as [e|];
        [|reflexivity].
      destruct (value_ d) as [v|]; [|reflexivity].
      rewrite Hv. reflexivity.
    + rewrite option_is_some. apply find_by_some_iff.
Qed.






(** X6: a raw record left in the dictionary.  An empty one counts as no
    policy: the verdict is [False] with the "not provided" diagnostic.  Any
    other makes [check_stock] raise [AttributeError], whatever the page. *)
Theorem check_stock_on_raw_record fuel domains link host w markup w1 fields :
  get_loaded_page py_hash fuel link 2 w = Returns markup w1 ->
  netloc link = Some host ->
  dict_get host domains = Some (RawRecord fields) ->
  (fields = [] ->
   check_stock py_hash lxml netloc re_beyond fuel domains link w
   = Returns false (emit (Print (not_provided host)) w1)) /\
  (fields <> [] ->
   check_stock py_hash lxml netloc re_beyond fuel domains link w
   = Stops (Raised AttributeError) w1).
Proof.
  intros Hpage Hhost Hd. split.
  - intros ->. unfold check_stock. unfold bind at 1.
    now rewrite Hpage, Hhost, Hd.
  - intros Hne. unfold check_stock. unfold bind at 1.
    rewrite Hpage, Hhost, Hd.
    destruct fields; [contradiction | reflexivity].
Qed.

Lemma get_loaded_page_stops_polling fuel link t w h w' :
  get_loaded_page py_hash fuel link t w = Stops h w' -> h = Polling.
Proof.
  destruct (first_stable py_hash w fuel) as [Hall | (k & Hk & Hs & Hb)].
  - rewrite get_loaded_page_runs by assumption. now intros [= <- _].
  - rewrite (get_loaded_page_leaves py_hash fuel link t w k) by assumption.
    discriminate.
Qed.

Lemma dict_get_In {V} k (v : V) d :
  dict_get k d = Some v -> exists k', In (k', v) d.
Proof.
  induction d as [|[k' v'] d IH]; [discriminate|]. cbn.
  destruct (String.eqb k k').
  - intros [= ->]. exists k'. now left.
  - intros H. destruct (IH H) as (k'' & Hin). exists k''. now right.
Qed.

(** X7: when every record of [pages.json] is convertible, the dictionary
    that [extract_domains] returns leaves [check_stock] one exception only,
    the [ValueError] of [urlparse].  In every state of the session, on a
    link of which [urlparse] gives a host the check either returns a verdict
    or is still waiting for the page to settle; on a link that [urlparse]
    refuses it raises [ValueError] once the page has settled. *)
Theorem converted_policies_never_raise r w0 :
  NoDup (dict_keys r) ->
  (forall k fields, In (k, fields) r -> convertible re_beyond fields) ->
  exists domains w0',
    extract_domains re_beyond (raw_dict r) w0 = Returns domains w0' /\
    forall fuel link w,
      (exists w',
         check_stock py_hash lxml netloc re_beyond fuel domains link w
         = Stops Polling w') \/
      match netloc link with
      | Some _ =>
          exists verdict w',
            check_stock py_hash lxml netloc re_beyond fuel domains link w
            = Returns verdict w'
      | None =>
          exists w',
            check_stock py_hash lxml netloc re_beyond fuel domains link w
            = Stops (Raised ValueError) w'
      end.
Proof.
  intros Hnd Hconv.
  assert (Hnf : forall k fields h,
             In (k, fields) r -> convert_record re_beyond fields <> Failed h).
  { intros k fields h Hin E. destruct (Hconv k fields Hin) as (d & Hd).
    congruence. }
  destruct (walk_settles re_beyond r w0 Hnf) as (w0' & E & _).
  exists (map (fun kf => (fst kf, settled re_beyond (snd kf))) r), w0'.
  rewrite (extract_domains_walk _ _ _ Hnd). split; [exact E|].
  intros fuel link w.
  destruct (get_loaded_page py_hash fuel link 2 w) as [markup w1 | h w1] eqn:P.
  - right. destruct (netloc link) as [host|] eqn:N;
      unfold check_stock; unfold bind at 1; rewrite P, N;
      [|eexists; reflexivity].
    destruct (dict_get host _) as [e|] eqn:G;
      [|eexists; eexists; reflexivity].
    apply dict_get_In in G as (k' & Hin).
    apply in_map_iff in Hin as ([k fields] & [= <- <-] & Hin).
    destruct (Hconv k fields Hin) as (d & Hd).
    unfold settled. rewrite Hd. cbn [entry_truthy].
    assert (Hval : value_ d = None \/
                   (exists p, value_ d = Some (VPattern p)) \/
                   (exists source found_in,
                      value_ d = Some (VForeign source found_in))).
    { unfold convert_record in Hd.
      destruct (dict_get "class_" fields) as [c|]; [|discriminate].
      destruct (dict_get "id_" fields) as [i|]; [|discriminate].
      destruct (dict_get "value_" fields) as [[raw|]|];
        [| injection Hd as <-; now left | discriminate].
      unfold py_compile in Hd.
      destruct (Re.compile _); [| discriminate |].
      - injection Hd as <-. right. left. cbn. eauto.
      - destruct (re_beyond _); [|discriminate].
        injection Hd as <-. right. right. cbn. eauto. }
    destruct Hval as [Hv | [(p & Hv) | (source & found_in & Hv)]];
      rewrite Hv;
      destruct (class_ d) as [[|a c]|]; destruct (id_ d) as [[|b i]|];
      cbn [Str.truthy value_truthy orb negb recompile];
      unfold bind, ret, print;
      repeat match goal with
             | |- context [Bs4.find_class ?c ?s] =>
                 destruct (Bs4.find_class c s)
             | |- context [Bs4.find_id ?c ?s] =>
                 destruct (Bs4.find_id c s)
             end;
      eexists; eexists; reflexivity.
  - left. exists w1. unfold check_stock. unfold bind at 1. rewrite P.
    now rewrite (get_loaded_page_stops_polling _ _ _ _ _ _ P).
Qed.

End Branches.

Lemma check_stock_selector_only_witness :
  exists verdict,
    check_stock Fixture.poly_hash Fixture.lxml Fixture.netloc Fixture.beyond 1
      [("shop.example.com", DomainObj (mkDomain (Some "price") None None))]
      Fixture.shop_item (Fixture.still Fixture.two_prices)
    = Returns verdict
        (world_of (get_loaded_page Fixture.poly_hash 1 Fixture.shop_item 2
                     (Fixture.still Fixture.two_prices))) /\
    (verdict = true <->
     exists n,
       In n (Bs4.descendants (Fixture.lxml (html Fixture.two_prices))) /\
       Bs4.matches_class "price" n = true).
Proof.
  apply (proj1 (check_stock_selector_only Fixture.poly_hash Fixture.lxml
                  Fixture.netloc Fixture.beyond 1
                  [("shop.example.com",
                    DomainObj (mkDomain (Some "price") None None))]
                  Fixture.shop_item "shop.example.com"
                  (Fixture.still Fixture.two_prices)
                  (html Fixture.two_prices)
                  (world_of (get_loaded_page Fixture.poly_hash 1
                               Fixture.shop_item 2
                               (Fixture.still Fixture.two_prices)))
                  (mkDomain (Some "price") None None)
                  ltac:(vm_compute; reflexivity)
                  ltac:(vm_compute; reflexivity)
                  ltac:(vm_compute; reflexivity)
                  eq_refl)
               "price"%string eq_refl eq_refl).
Defined.



Lemma check_stock_on_raw_record_witness :
  check_stock Fixture.poly_hash Fixture.lxml Fixture.netloc Fixture.beyond 1
    [("shop.example.com", RawRecord [("class", Some "stock")])]
    Fixture.shop_item (Fixture.still Fixture.two_prices)
  = Stops (Raised AttributeError)
      (world_of (get_loaded_page Fixture.poly_hash 1 Fixture.shop_item 2
                   (Fixture.still Fixture.two_prices))).
Proof.
  apply (proj2 (check_stock_on_raw_record Fixture.poly_hash Fixture.lxml
                  Fixture.netloc Fixture.beyond 1
                  [("shop.example.com", RawRecord [("class", Some "stock")])]
                  Fixture.shop_item "shop.example.com"
                  (Fixture.still Fixture.two_prices)
                  (html Fixture.two_prices)
                  (world_of (get_loaded_page Fixture.poly_hash 1
                               Fixture.shop_item 2
                               (Fixture.still Fixture.two_prices)))
                  [("class", Some "stock")]
                  ltac:(vm_compute; reflexivity)
                  ltac:(vm_compute; reflexivity)
                  ltac:(vm_compute; reflexivity))).
  discriminate.
Defined.

Lemma converted_policies_never_raise_witness :
  exists domains w0',
    extract_domains Fixture.beyond
      (raw_dict [("shop.example.com",
                  [("class_", Some "price"); ("id_", None);
                   ("value_", Some "SOLD")]);
                 ("other.example.com",
                  [("class_", None); ("id_", None);
                   ("value_", Some "$9.99")])])
      (Fixture.still "")
    = Returns domains w0' /\
    forall fuel link w,
      (exists w',
         check_stock Fixture.poly_hash Fixture.lxml Fixture.netloc
           Fixture.beyond fuel domains link w
         = Stops Polling w') \/
      match Fixture.netloc link with
      | Some _ =>
          exists verdict w',
            check_stock Fixture.poly_hash Fixture.lxml Fixture.netloc
              Fixture.beyond fuel domains link w
            = Returns verdict w'
      | None =>
          exists w',
            check_stock Fixture.poly_hash Fixture.lxml Fixture.netloc
              Fixture.beyond fuel domains link w
            = Stops (Raised ValueError) w'
      end.
Proof.
  apply (converted_policies_never_raise Fixture.poly_hash Fixture.lxml
           Fixture.netloc Fixture.beyond
           [("shop.example.com",
             [("class_", Some "price"); ("id_", None);
              ("value_", Some "SOLD")]);
            ("other.example.com",
             [("class_", None); ("id_", None); ("value_", Some "$9.99")])]
           (Fixture.still "")).
  - repeat constructor; cbn; intuition discriminate.
  - intros k fields [[= <- <-] | [[= <- <-] | []]];
      eexists; vm_compute; reflexivity.
Defined.

(** ** What the stabilization loop does to the session *)

Lemma after_rounds_log t k : forall w,
  log (after_rounds t k w)
  = log w ++ rounds_trace t (feed w) (cursor w) k.
Proof.
  induction k as [|k IH]; intros w; cbn [after_rounds rounds_trace].
  - now rewrite app_nil_r.
  - rewrite IH. cbn [after_round log feed cursor].
    now rewrite <- app_assoc.
Qed.

Lemma page_source_unfold w :
  page_source w
  = Returns (html (feed w (cursor w)))
      (mkWorld (feed w) (bakes w) (S (cursor w)) (jar w)
         (log w ++ [ReadSource (html (feed w (cursor w)))])).
Proof. reflexivity. Qed.

Section LoopTrace.

Variable py_hash : string -> Z.

(** X8: whenever [get_loaded_page] returns, the session has seen, after the
    navigation, at least one round of polling, every round being a reading
    of the DOM, one sleep of [sleep_time] and a second reading, and then one
    request for the page source; what is returned is that page source, an
    observation made after the two that were compared.  The cookies are
    those the navigation set. *)
Theorem get_loaded_page_trace fuel link t w markup w' :
  get_loaded_page py_hash fuel link t w = Returns markup w' ->
  exists k,
    k < fuel /\
    markup = html (upcoming w (2 * S k)) /\
    log w' = log w ++ Navigate link
                      :: rounds_trace t (feed w) (cursor w) (S k)
                      ++ [ReadSource markup] /\
    cursor w' = cursor w + 2 * S k + 1 /\
    jar w' = jar w ++ bakes w link.
Proof.
  intros E.
  destruct (first_stable py_hash w fuel) as [Hall | (k & Hk & Hs & Hb)].
  - rewrite get_loaded_page_runs in E by assumption. discriminate.
  - rewrite (get_loaded_page_leaves py_hash fuel link t w k) in E
      by assumption.
    exists k. split; [exact Hk|].
    destruct (after_rounds_facts t (S k) (navigated link w))
      as (F & C & B & J & _).
    pose proof (after_rounds_log t (S k) (navigated link w)) as L.
    remember (after_rounds t (S k) (navigated link w)) as x eqn:Hx.
    clear Hx. rewrite page_source_unfold in E.
    assert (Em : markup = html (upcoming w (2 * S k))).
    { injection E as Em _. rewrite <- Em, F, C. reflexivity. }
    split; [exact Em|].
    assert (Ew : w' = mkWorld (feed x) (bakes x) (S (cursor x)) (jar x)
                   (log x ++ [ReadSource markup])).
    { injection E as Em' Ew. now rewrite <- Ew, Em'. }
    rewrite Ew. cbn [log cursor jar]. rewrite C, J, L.
    cbn [navigated feed cursor log jar bakes].
    rewrite <- !app_assoc. repeat split; try reflexivity. lia.
Qed.

(** X9: stability is judged on hashes.  Two different DOMs whose hashes
    collide count as a settled page: the loop is left after the first
    round. *)
Theorem hash_collision_counts_as_stable fuel link t w :
  py_hash (upcoming w 0) = py_hash (upcoming w 1) ->
  exists w',
    get_loaded_page py_hash (S fuel) link t w
    = Returns (html (upcoming w 2)) w' /\
    dom_reads (log w') = dom_reads (log w) + 2.
Proof.
  intros Hcol.
  assert (Hs : stable_pair py_hash w 0 = true).
  { unfold stable_pair. cbn [Nat.mul Nat.add]. rewrite Hcol.
    apply Z.eqb_refl. }
  rewrite (get_loaded_page_leaves py_hash (S fuel) link t w 0);
    [| lia | intros j Hj; lia | exact Hs].
  destruct (page_source_after t 1 (navigated link w)) as (w' & E & L).
  exists w'. split; [exact E|].
  rewrite L, dom_reads_app.
  destruct (after_rounds_facts t 1 (navigated link w)) as (_ & _ & _ & _ & R).
  rewrite R. cbn [navigated log]. rewrite dom_reads_app. cbn. lia.
Qed.

End LoopTrace.

Lemma get_loaded_page_trace_witness :
  exists k,
    k < 2 /\
    html "B" = html (upcoming (Fixture.scripted ["A"; "B"; "B"; "B"] "B")
                       (2 * S k)) /\
    log (world_of (get_loaded_page Fixture.poly_hash 2 Fixture.shop_item 2
                     (Fixture.scripted ["A"; "B"; "B"; "B"] "B")))
    = log (Fixture.scripted ["A"; "B"; "B"; "B"] "B")
      ++ Navigate Fixture.shop_item
         :: rounds_trace 2 (feed (Fixture.scripted ["A"; "B"; "B"; "B"] "B"))
              (cursor (Fixture.scripted ["A"; "B"; "B"; "B"] "B")) (S k)
         ++ [ReadSource (html "B")] /\
    cursor (world_of (get_loaded_page Fixture.poly_hash 2 Fixture.shop_item 2
                        (Fixture.scripted ["A"; "B"; "B"; "B"] "B")))
    = cursor (Fixture.scripted ["A"; "B"; "B"; "B"] "B") + 2 * S k + 1 /\
    jar (world_of (get_loaded_page Fixture.poly_hash 2 Fixture.shop_item 2
                     (Fixture.scripted ["A"; "B"; "B"; "B"] "B")))
    = jar (Fixture.scripted ["A"; "B"; "B"; "B"] "B")
      ++ bakes (Fixture.scripted ["A"; "B"; "B"; "B"] "B") Fixture.shop_item.
Proof.
  apply (get_loaded_page_trace Fixture.poly_hash 2 Fixture.shop_item 2
           (Fixture.scripted ["A"; "B"; "B"; "B"] "B") (html "B")
           (world_of (get_loaded_page Fixture.poly_hash 2 Fixture.shop_item 2
                        (Fixture.scripted ["A"; "B"; "B"; "B"] "B")))).
  vm_compute. reflexivity.
Defined.

Lemma hash_collision_counts_as_stable_witness :
  "Aa"%string <> "BB"%string /\
  exists w',
    get_loaded_page Fixture.poly_hash 1 Fixture.shop_item 2
      (Fixture.scripted ["Aa"; "BB"] "C")
    = Returns (html "C") w' /\
    dom_reads (log w') = 2.
Proof.
  split; [discriminate|].
  apply (hash_collision_counts_as_stable Fixture.poly_hash 0
           Fixture.shop_item 2 (Fixture.scripted ["Aa"; "BB"] "C")).
  vm_compute. reflexivity.
Defined.

(** ** Notifications *)

Lemma send_to_mails n subject body to : forall w,
  send_to n to subject body w
  = Returns tt
      (mkWorld (feed w) (bakes w) (cursor w) (jar w)
         (log w ++ map (mail_of n subject body) to)).
Proof.
  induction to as [|r to IH]; intros w.
  - cbn. rewrite app_nil_r. now destruct w.
  - cbn [send_to map]. unfold bind. rewrite IH.
    cbn [emit feed bakes cursor jar log].
    rewrite <- app_assoc. reflexivity.
Qed.

(** X10: [send_notification] hands the server one mail per recipient, in
    the order of the list, each from the sender's address, with its own
    [To:] line and the same subject and body; it does nothing else, and
    nothing at all when there is no recipient. *)
Theorem send_notification_mails n subject body w :
  send_notification n subject body w
  = Returns tt
      (mkWorld (feed w) (bakes w) (cursor w) (jar w)
         (log w ++ map (mail_of n subject body) (recipients n))) /\
  (recipients n = [] -> send_notification n subject body w = Returns tt w).
Proof.
  unfold send_notification. split; [apply send_to_mails|].
  intros ->. reflexivity.
Qed.

Lemma reports_app l1 l2 : reports (l1 ++ l2) = reports l1 ++ reports l2.
Proof. apply filter_app. Qed.

Lemma reports_rounds t script k : forall c,
  reports (rounds_trace t script c k) = [].
Proof. induction k as [|k IH]; intros c; cbn; [reflexivity | apply IH]. Qed.

Lemma reports_report_of n link verdict :
  reports (report_of n link verdict) = report_of n link verdict.
Proof.
  unfold report_of. destruct verdict; [|reflexivity].
  rewrite reports_app. f_equal.
  induction (recipients n) as [|r l IH]; [reflexivity|].
  cbn [map]. unfold reports in *. cbn [filter mail_of is_report].
  now rewrite IH.
Qed.

Section Reports.

Variable py_hash : string -> Z.
Variable lxml : string -> Bs4.node.
Variable netloc : string -> option string.
Variable re_beyond : string -> option (string -> bool).

Lemma get_loaded_page_reports fuel link t w :
  reports (log (world_of (get_loaded_page py_hash fuel link t w)))
  = reports (log w).
Proof.
  destruct (first_stable py_hash w fuel) as [Hall | (k & Hk & Hs & Hb)].
  - rewrite get_loaded_page_runs by assumption. cbn [world_of].
    rewrite after_rounds_log, reports_app, reports_rounds.
    cbn [navigated log]. rewrite reports_app. cbn. now rewrite !app_nil_r.
  - rewrite (get_loaded_page_leaves py_hash fuel link t w k) by assumption.
    rewrite page_source_unfold. cbn [world_of log].
    rewrite after_rounds_log, !reports_app, reports_rounds.
    cbn [navigated log]. rewrite reports_app. cbn. now rewrite !app_nil_r.
Qed.

(** A check mails nothing and prints no status line. *)
Lemma check_stock_reports fuel domains link w :
  reports
    (log (world_of
            (check_stock py_hash lxml netloc re_beyond fuel domains link w)))
  = reports (log w).
Proof.
  pose proof (get_loaded_page_reports fuel link 2 w) as Hpage.
  unfold check_stock. unfold bind at 1.
  destruct (get_loaded_page py_hash fuel link 2 w) as [markup w1 | h w1];
    cbn [world_of] in Hpage; [|exact Hpage].
  destruct (netloc link) as [host|]; [|exact Hpage].
  assert (Hnp : reports (log (emit (Print (not_provided host)) w1))
                = reports (log w)).
  { cbn [emit log]. rewrite reports_app. cbn. now rewrite app_nil_r. }
  assert (Hnc : reports (log (emit (Print (no_criteria host)) w1))
                = reports (log w)).
  { cbn [emit log]. rewrite reports_app. cbn. now rewrite app_nil_r. }
  destruct (dict_get host domains) as [[fields | d]|];
    [| | exact Hnp].
  - destruct fields; cbn [entry_truthy]; [exact Hnp | exact Hpage].
  - cbn [entry_truthy].
    destruct (negb _); [exact Hnc|].
    unfold bind.
    match goal with
    | |- context [match ?soup with Some _ => _ | None => _ end] =>
        destruct soup as [s|]
    end.
    + destruct (value_ d) as [v|]; [|exact Hpage].
      destruct (value_truthy (Some v)); [|exact Hpage].
      destruct v as [raw | p | source found_in]; cbn [recompile];
        [| exact Hpage | exact Hpage].
      destruct (py_compile re_beyond raw); exact Hpage.
    + exact Hpage.
Qed.

(** The report on one link, as [main] makes it from the verdict. *)
Lemma report_step notifier (found : bool) link w :
  (if found
   then send_notification notifier "Stock Alert" link ;;;
        print (in_stock link)
   else print (out_of_stock link)) w
  = Returns tt (reported notifier link found w).
Proof.
  destruct found.
  - unfold bind, send_notification. rewrite send_to_mails.
    unfold print, emit, reported, report_of.
    cbn [feed bakes cursor jar log]. now rewrite <- app_assoc.
  - reflexivity.
Qed.

(** X11: in a sweep that completes, every link is checked and gets the
    report of its own verdict, in the order of the links: for a link whose
    check returned [True], one mail to every recipient, with the subject
    "Stock Alert" and the link as body, followed by the line "IN STOCK";
    for a link whose check returned [False], the line "Out of Stock" and no
    mail.  Nothing else is mailed and no other status line is printed. *)
Theorem sweep_reports fuel domains notifier links : forall w w',
  sweep py_hash lxml netloc re_beyond fuel domains notifier links w
  = Returns tt w' ->
  List.length
    (verdicts py_hash lxml netloc re_beyond fuel domains notifier links w)
  = List.length links /\
  reports (log w')
  = reports (log w)
    ++ flat_map (fun lv => report_of notifier (fst lv) (snd lv))
         (combine links
            (verdicts py_hash lxml netloc re_beyond fuel domains notifier
               links w)).
Proof.
  induction links as [|link rest IH]; intros w w' E.
  - cbn in E. injection E as <-. cbn. now rewrite app_nil_r.
  - cbn [sweep verdicts] in *. unfold bind at 1 in E.
    pose proof (check_stock_reports fuel domains link w) as Hc.
    destruct (check_stock py_hash lxml netloc re_beyond fuel domains link w)
      as [found w1 | h w1]; [|discriminate E].
    cbn [world_of] in Hc. unfold bind at 1 in E.
    rewrite report_step in E.
    destruct (IH _ w' E) as (Hlen & Hrep).
    split; [cbn [List.length]; now rewrite Hlen|].
    rewrite Hrep. unfold reported at 1. cbn [log].
    rewrite reports_app, Hc, reports_report_of.
    cbn [combine flat_map fst snd]. now rewrite <- app_assoc.
Qed.

End Reports.

Lemma sweep_reports_witness :
  let notifier :=
    mkNotifier "me@example.com" ["you@example.com"; "them@example.com"] in
  let domains :=
    [("shop.example.com", DomainObj (mkDomain (Some "price") None None))] in
  let links := [Fixture.shop_item; "https://other.example.com/b"%string] in
  let w := Fixture.still Fixture.two_prices in
  verdicts Fixture.poly_hash Fixture.lxml Fixture.netloc Fixture.beyond 1
    domains notifier links w
  = [true; false] /\
  reports
    (log (world_of
            (sweep Fixture.poly_hash Fixture.lxml Fixture.netloc
               Fixture.beyond 1 domains notifier links w)))
  = reports (log w)
    ++ flat_map (fun lv => report_of notifier (fst lv) (snd lv))
         (combine links
            (verdicts Fixture.poly_hash Fixture.lxml Fixture.netloc
               Fixture.beyond 1 domains notifier links w)).
Proof.
  cbv zeta. split; [vm_compute; reflexivity|].
  apply (sweep_reports Fixture.poly_hash Fixture.lxml Fixture.netloc
           Fixture.beyond 1
           [("shop.example.com",
             DomainObj (mkDomain (Some "price") None None))]
           (mkNotifier "me@example.com"
              ["you@example.com"; "them@example.com"])
           [Fixture.shop_item; "https://other.example.com/b"%string]
           (Fixture.still Fixture.two_prices)).
  vm_compute. reflexivity.
Defined.

(** ** Applying [extract_domains] twice *)

Section Twice.

Variable re_beyond : string -> option (string -> bool).

Lemma settled_skipped fields :
  has_fields fields = false -> settled re_beyond fields = RawRecord fields.
Proof.
  intros Hf. apply (has_fields_skipped re_beyond) in Hf.
  unfold settled. now rewrite Hf.
Qed.

Lemma extract_loop_on_settled r : forall done w,
  NoDup (dict_keys done ++ dict_keys r) ->
  (forall k fields h,
     In (k, fields) r -> convert_record re_beyond fields <> Failed h) ->
  (exists k fields, In (k, fields) r /\ has_fields fields = true) ->
  exists w',
    extract_loop re_beyond (dict_keys r) (done ++ settled_dict re_beyond r) w
    = Stops (Raised TypeError) w'.
Proof.
  induction r as [|[k fields] r IH]; intros done w Hnd Hok Hex.
  - destruct Hex as (k & fields & [] & _).
  - assert (Hk : ~ In k (dict_keys done)).
    { intros Hin. cbn [dict_keys map fst] in Hnd.
      apply NoDup_remove_2 in Hnd. apply Hnd. apply in_or_app. now left. }
    cbn [dict_keys map fst settled_dict snd extract_loop].
    fold (dict_keys r). fold (settled_dict re_beyond r).
    rewrite dict_get_app_skip, dict_get_here by assumption.
    unfold settled at 1.
    destruct (convert_record re_beyond fields) as [d| |h] eqn:E.
    + exists w. reflexivity.
    + assert (Es : settled re_beyond fields = RawRecord fields)
        by (unfold settled; now rewrite E).
      rewrite Es, try_convert_record by assumption. rewrite E.
      unfold bind, print.
      change (done ++ (k, RawRecord fields) :: settled_dict re_beyond r)
        with (done ++ [(k, RawRecord fields)] ++ settled_dict re_beyond r).
      rewrite app_assoc. apply IH.
      * rewrite dict_keys_app, <- app_assoc. exact Hnd.
      * intros k0 f0 h0 Hin. apply (Hok k0 f0 h0). now right.
      * destruct Hex as (k0 & f0 & [[= <- <-] | Hin] & Hf).
        -- apply has_fields_skipped in E. congruence.
        -- now exists k0, f0.
    + exfalso. apply (Hok k fields h); [now left | exact E].
Qed.

(** X12: [extract_domains] works once.  When every value that is reached
    is one that [re.compile] accepts, it returns a dictionary; applied to
    that dictionary it raises [TypeError] at the first converted entry,
    since a [Domain] cannot be subscripted; only when no record had the
    three field names, so that the dictionary came back as it went in, does
    a second pass go through. *)
Theorem extract_domains_twice r w :
  NoDup (dict_keys r) ->
  values_compile re_beyond r ->
  exists d' w1,
    extract_domains re_beyond (raw_dict r) w = Returns d' w1 /\
    ((exists k fields, In (k, fields) r /\ has_fields fields = true) ->
     exists w2,
       extract_domains re_beyond d' w1 = Stops (Raised TypeError) w2) /\
    ((forall k fields, In (k, fields) r -> has_fields fields = false) ->
     d' = raw_dict r).
Proof.
  intros Hnd Hok.
  pose proof (values_compile_never_fail re_beyond r Hok) as Hnf.
  destruct (walk_settles re_beyond r w Hnf) as (w1 & E & _).
  exists (settled_dict re_beyond r), w1.
  rewrite (extract_domains_walk _ _ _ Hnd). split; [exact E|]. split.
  - intros Hex. unfold extract_domains.
    unfold settled_dict at 1. rewrite settled_keys.
    apply (extract_loop_on_settled r [] w1); assumption.
  - intros Hall. unfold settled_dict, raw_dict. apply map_ext_in.
    intros [k fields] Hin. cbn [fst snd].
    now rewrite (settled_skipped fields (Hall k fields Hin)).
Qed.

End Twice.

Lemma extract_domains_twice_witness :
  exists d' w1,
    extract_domains Fixture.beyond
      (raw_dict [("a.example.com", [("class", Some "stock")]);
                 ("b.example.com",
                  [("class_", Some "stock"); ("id_", None);
                   ("value_", None)])])
      (Fixture.still "")
    = Returns d' w1 /\
    exists w2,
      extract_domains Fixture.beyond d' w1 = Stops (Raised TypeError) w2.
Proof.
  destruct (extract_domains_twice Fixture.beyond
              [("a.example.com", [("class", Some "stock")]);
               ("b.example.com",
                [("class_", Some "stock"); ("id_", None); ("value_", None)])]
              (Fixture.still ""))
    as (d' & w1 & E & Htwice & _).
  - repeat constructor; cbn; intuition discriminate.
  - intros k fields raw [[= <- <-] | [[= <- <-] | []]] Hf Hv;
      discriminate.
  - exists d', w1. split; [exact E|]. apply Htwice.
    exists "b.example.com"%string,
           [("class_", Some "stock"); ("id_", None); ("value_", None)].
    split; [right; now left | reflexivity].
Defined.

(** ** The entry point *)

Section MainFacts.

Variable py_hash : string -> Z.
Variable lxml : string -> Bs4.node.
Variable netloc : string -> option string.
Variable re_beyond : string -> option (string -> bool).

(** X13: when a key of [info.json] is missing, the diagnostic is printed
    and the run goes on to build the notifier with a name that was never
    bound: it ends with [UnboundLocalError] on [smtp_host] or [smtp_port]
    before any connection is made, unless [extract_domains] had already
    raised.  The loop is not reached. *)
Theorem main_incomplete_info n fuel info pages w :
  info_complete info = false ->
  fst (main py_hash lxml netloc re_beyond n fuel info pages w) = [] /\
  match snd (main py_hash lxml netloc re_beyond n fuel info pages w) with
  | Looped _ => False
  | UnboundLocal name w' =>
      (name = "smtp_host"%string \/ name = "smtp_port"%string) /\
      exists before, log w' = before ++ [Print info_error]
  | Uncaught h w' =>
      exists r,
        pages_domains pages = Some r /\
        extract_domains re_beyond (raw_dict r) w = Stops h w'
  end.
Proof.
  intros Hinfo. unfold main, read_pages.
  destruct (pages_links pages) as [links|];
    [destruct (pages_domains pages) as [r|];
     [destruct (extract_domains re_beyond (raw_dict r) w)
        as [d w1 | [[]|] w1] eqn:E|]
    |];
    destruct info as [[a|] [p|] [to|] [h|] [port|]];
    try discriminate Hinfo; cbn;
    (split; [reflexivity|]);
    first [ split;
            [ first [left; reflexivity | right; reflexivity]
            | eexists; reflexivity ]
          | eexists; split; [reflexivity | exact E] ].
Qed.

(** X14: when [info.json] is complete and [pages.json] lacks [links] or
    [domains], the diagnostic is printed, the SMTP session is opened and
    logged in, and the run ends with [UnboundLocalError] on [domains] when
    the scraper is built: the browser is never started. *)
Theorem main_incomplete_pages n fuel pages w a p to h port :
  pages_links pages = None \/ pages_domains pages = None ->
  main py_hash lxml netloc re_beyond n fuel
    (mkInfo (Some a) (Some p) (Some to) (Some h) (Some port)) pages w
  = (start_server h port a p,
     UnboundLocal "domains" (emit (Print pages_error) w)).
Proof.
  intros Hmiss. unfold main, read_pages.
  destruct (pages_links pages) as [links|].
  - destruct Hmiss as [Hm | Hm]; [discriminate|]. now rewrite Hm.
  - reflexivity.
Qed.


End MainFacts.

Lemma main_incomplete_info_witness :
  let info := mkInfo (Some "me@example.com") (Some "secret")
                (Some ["you@example.com"]) (Some "smtp.example.com") None in
  let pages := mkPages (Some [Fixture.shop_item])
                 (Some [("shop.example.com",
                         [("class_", Some "price"); ("id_", None);
                          ("value_", None)])]) in
  let w := Fixture.still Fixture.two_prices in
  info_complete info = false /\
  fst (main Fixture.poly_hash Fixture.lxml Fixture.netloc Fixture.beyond
         1 1 info pages w)
  = [] /\
  snd (main Fixture.poly_hash Fixture.lxml Fixture.netloc Fixture.beyond
         1 1 info pages w)
  = UnboundLocal "smtp_port" (emit (Print info_error) w).
Proof.
  cbv zeta. split; [reflexivity|]. split.
  - apply (main_incomplete_info Fixture.poly_hash Fixture.lxml
             Fixture.netloc Fixture.beyond 1 1
             (mkInfo (Some "me@example.com") (Some "secret")
                (Some ["you@example.com"]) (Some "smtp.example.com") None)
             (mkPages (Some [Fixture.shop_item])
                (Some [("shop.example.com",
                        [("class_", Some "price"); ("id_", None);
                         ("value_", None)])]))
             (Fixture.still Fixture.two_prices)).
    reflexivity.
  - vm_compute. reflexivity.
Defined.

Lemma main_incomplete_pages_witness :
  main Fixture.poly_hash Fixture.lxml Fixture.netloc Fixture.beyond 1 1
    (mkInfo (Some "me@example.com") (Some "secret")
       (Some ["you@example.com"]) (Some "smtp.example.com") (Some 587%Z))
    (mkPages (Some [Fixture.shop_item]) None)
    (Fixture.still Fixture.two_prices)
  = ([SmtpConnect "smtp.example.com" 587; SmtpStartTls;
      SmtpLogin "me@example.com" "secret"],
     UnboundLocal "domains"
       (emit (Print pages_error) (Fixture.still Fixture.two_prices))).
Proof.
  apply (main_incomplete_pages Fixture.poly_hash Fixture.lxml
           Fixture.netloc Fixture.beyond
           1 1 (mkPages (Some [Fixture.shop_item]) None)
           (Fixture.still Fixture.two_prices)
           "me@example.com" "secret" ["you@example.com"]
           "smtp.example.com" 587%Z).
  right. reflexivity.
Defined.


(** ** Edge cases of the loop and of the value *)

Section Edges.

Variable py_hash : string -> Z.
Variable lxml : string -> Bs4.node.
Variable netloc : string -> option string.
Variable re_beyond : string -> option (string -> bool).

(** X16: a page that never settles holds the whole run.  If no round of
    polling on the first link ever sees two equal hashes, then however long
    the loop is followed the run is still polling that page: the session
    has seen the navigation to it and nothing after, no later link is
    visited, nothing is reported and no cookie is deleted. *)
Theorem restless_page_holds_the_run n fuel domains notifier link rest w :
  (forall k, stable_pair py_hash w k = false) ->
  sweeps py_hash lxml netloc re_beyond (S n) fuel domains notifier
    (link :: rest) w
  = Stops Polling (after_rounds 2 fuel (navigated link w)) /\
  session_events (log (after_rounds 2 fuel (navigated link w)))
  = session_events (log w) ++ [Navigate link] /\
  reports (log (after_rounds 2 fuel (navigated link w))) = reports (log w).
Proof.
  intros Hnever. split; [|split].
  - cbn [sweeps sweep]. unfold check_stock, bind.
    rewrite get_loaded_page_runs by (intros k _; apply Hnever).
    reflexivity.
  - destruct (session_untouched_rounds 2 fuel (navigated link w)) as (E & _).
    rewrite E. cbn [navigated log]. now rewrite session_events_app.
  - rewrite after_rounds_log, reports_app, reports_rounds.
    cbn [navigated log]. rewrite reports_app. cbn. now rewrite !app_nil_r.
Qed.

(** X17: with no link configured the main loop does nothing but delete the
    cookies, once per round: it never navigates, checks or reports, and
    nothing can stop it. *)
Theorem sweeps_without_links n fuel domains notifier : forall w,
  sweeps py_hash lxml netloc re_beyond n fuel domains notifier [] w
  = Returns tt
      (mkWorld (feed w) (bakes w) (cursor w)
         (match n with O => jar w | S _ => [] end)
         (log w ++ repeat DeleteCookies n)).
Proof.
  induction n as [|n IH]; intros w.
  - cbn. rewrite app_nil_r. now destruct w.
  - cbn [sweeps sweep]. unfold bind, ret, delete_cookies, delete_all_cookies.
    rewrite IH. cbn [feed bakes cursor jar log repeat].
    rewrite <- app_assoc. cbn [app]. now destruct n.
Qed.

End Edges.

Section EmptyValue.

Variable re_beyond : string -> option (string -> bool).

(** X18: an empty value is not an absent one.  [extract_domains] compiles
    it, into a pattern that every string matches, so a policy with the value
    [""] and no class or id finds any page that has some text; a class or an
    id that is the empty string, in contrast, counts as not configured. *)
Theorem empty_value_matches_every_string key c i w :
  exists p,
    extract_domains re_beyond
      (raw_dict [(key, [("class_", c); ("id_", i); ("value_", Some "")])]) w
    = Returns [(key, DomainObj (mkDomain c i (Some (VPattern p))))] w /\
    value_truthy (Some (VPattern p)) = true /\
    Str.truthy (Some "") = false /\
    forall text, Bs4.matches_text p (Bs4.NavigableString text) = true.
Proof.
  exists ((Re.Dot, Re.Star) :: Re.literal "" ++ [(Re.Dot, Re.Star)]).
  split; [|split; [reflexivity|split; [reflexivity|]]].
  - rewrite extract_domains_walk
      by (repeat constructor; cbn; intuition discriminate).
    reflexivity.
  - intros text. cbn [Bs4.matches_text].
    apply (ReFacts.search_wrapped_literal "" text).
    now exists ""%string, text.
Qed.

End EmptyValue.

Lemma restless_page_holds_the_run_witness :
  sweeps Fixture.poly_hash Fixture.lxml Fixture.netloc Fixture.beyond 1 3
    [("shop.example.com", DomainObj (mkDomain (Some "price") None None))]
    (mkNotifier "me@example.com" ["you@example.com"])
    [Fixture.shop_item; "https://other.example.com/b"]
    (mkWorld (fun i => if Nat.even i then "tick" else "tock")%string
       (fun _ => []) 0 [] [])
  = Stops Polling
      (after_rounds 2 3
         (navigated Fixture.shop_item
            (mkWorld (fun i => if Nat.even i then "tick" else "tock")%string
               (fun _ => []) 0 [] []))).
Proof.
  apply (restless_page_holds_the_run Fixture.poly_hash Fixture.lxml
           Fixture.netloc Fixture.beyond 0 3
           [("shop.example.com",
             DomainObj (mkDomain (Some "price") None None))]
           (mkNotifier "me@example.com" ["you@example.com"])
           Fixture.shop_item ["https://other.example.com/b"%string]
           (mkWorld (fun i => if Nat.even i then "tick" else "tock")%string
              (fun _ => []) 0 [] [])).
  intros k. unfold stable_pair, upcoming. cbn [feed cursor].
  rewrite !Nat.add_0_l, Nat.add_1_r, Nat.even_succ, Nat.odd_even,
    Nat.even_even.
  reflexivity.
Defined.

Lemma send_notification_mails_witness :
  let n := mkNotifier "me@example.com" [] in
  recipients n = [] /\
  send_notification n "Stock Alert" Fixture.shop_item (Fixture.still "")
  = Returns tt (Fixture.still "").
Proof.
  cbv zeta. split; [reflexivity|].
  apply (proj2 (send_notification_mails (mkNotifier "me@example.com" [])
                  "Stock Alert" Fixture.shop_item (Fixture.still ""))).
  reflexivity.
Defined.
